(** * The room registry and session handlers of the chess-tac-toe relay server

  A shallow embedding of [src/server.js]: the in-memory registry [rooms],
  the helpers [makeCode], [getRoomOfSocket] and [swapRoomRoles], and the four
  handlers installed on every connection ([create-room], [join-room],
  [action], [disconnect]).  A handler is a function from the server state and
  its argument to the next state and the list of messages it emits. *)

From Stdlib Require Import Ascii String.
From stdpp Require Import gmap strings list fin_maps.

Set Warnings "-register-all".

Local Open Scope string_scope.

(** ** JavaScript strings

  A string is given by the bytes of its UTF-8 encoding (an unpaired surrogate
  by the three bytes of its code point): two strings are equal exactly when
  their bytes are.  The String.prototype methods the server calls are given
  on that encoding; [trim] removes the white space and line terminators of
  ECMAScript and [toUpperCase] applies the upper-case mapping of the Unicode
  Character Database, [upper_table] (version 14.0). *)
Module JsString.

Definition code_of (c : ascii) : nat := nat_of_ascii c.

Definition is_lower (c : ascii) : bool :=
  (97 <=? code_of c)%nat && (code_of c <=? 122)%nat.

Definition is_upper (c : ascii) : bool :=
  (65 <=? code_of c)%nat && (code_of c <=? 90)%nat.

Definition is_digit (c : ascii) : bool :=
  (48 <=? code_of c)%nat && (code_of c <=? 57)%nat.

(** The white space and line terminators of one byte: TAB, LF, VT, FF, CR
    and SPACE; those of two and three bytes are [white2] and [white3]
    below. *)
Definition white1 (c : ascii) : bool :=
  ((9 <=? code_of c)%nat && (code_of c <=? 13)%nat) || (code_of c =? 32)%nat.

(** The upper-case mapping of the characters of one byte: a-z to A-Z; the
    other characters are mapped by [upper_of] below. *)
Definition upper_ascii (c : ascii) : ascii :=
  if is_lower c then ascii_of_nat (code_of c - 32) else c.

Definition lower_char (c : ascii) : ascii :=
  if is_upper c then ascii_of_nat (code_of c + 32) else c.

(** A character below 128 that is no white space. *)
Definition is_plain (c : ascii) : bool :=
  (code_of c <? 128)%nat && negb (white1 c).

(** *** UTF-8 *)

(** A continuation byte, 10xxxxxx. *)
Definition is_cont (c : ascii) : bool :=
  (128 <=? code_of c)%nat && (code_of c <? 192)%nat.

Definition bits (c : ascii) (lead : nat) : N := N.of_nat (code_of c - lead).

(** The bytes [c1 c2] are a character of two bytes, [c1 c2 c3] one of three,
    [c1 c2 c3 c4] one of four. *)
Definition two_bytes (c1 c2 : ascii) : bool :=
  (194 <=? code_of c1)%nat && (code_of c1 <? 224)%nat && is_cont c2.

Definition three_bytes (c1 c2 c3 : ascii) : bool :=
  (224 <=? code_of c1)%nat && (code_of c1 <? 240)%nat && is_cont c2 && is_cont c3.

Definition four_bytes (c1 c2 c3 c4 : ascii) : bool :=
  (240 <=? code_of c1)%nat && (code_of c1 <? 248)%nat &&
  is_cont c2 && is_cont c3 && is_cont c4.

(** The code point of a character of two, three and four bytes. *)
Definition decode2 (c1 c2 : ascii) : N :=
  (bits c1 192 * 64 + bits c2 128)%N.

Definition decode3 (c1 c2 c3 : ascii) : N :=
  ((bits c1 224 * 64 + bits c2 128) * 64 + bits c3 128)%N.

Definition decode4 (c1 c2 c3 c4 : ascii) : N :=
  (((bits c1 240 * 64 + bits c2 128) * 64 + bits c3 128) * 64 + bits c4 128)%N.

(** The bytes of a code point. *)
Definition encode (cp : N) : string :=
  if (cp <? 128)%N then String (ascii_of_N cp) EmptyString
  else if (cp <? 2048)%N then
    String (ascii_of_N (192 + cp / 64))
      (String (ascii_of_N (128 + cp mod 64)) EmptyString)
  else if (cp <? 65536)%N then
    String (ascii_of_N (224 + cp / 4096))
      (String (ascii_of_N (128 + (cp / 64) mod 64))
         (String (ascii_of_N (128 + cp mod 64)) EmptyString))
  else
    String (ascii_of_N (240 + cp / 262144))
      (String (ascii_of_N (128 + (cp / 4096) mod 64))
         (String (ascii_of_N (128 + (cp / 64) mod 64))
            (String (ascii_of_N (128 + cp mod 64)) EmptyString))).

Fixpoint encode_all (l : list N) : string :=
  match l with
  | [] => EmptyString
  | cp :: l' => encode cp ++ encode_all l'
  end.

(** *** White space

    The code points [trim] removes: WhiteSpace (TAB, VT, FF, ZWNBSP and the
    space separators) and LineTerminator (LF, CR, LS, PS). *)
Definition white_space : list N :=
  [9; 10; 11; 12; 13; 32; 160; 5760;
   8192; 8193; 8194; 8195; 8196; 8197; 8198; 8199; 8200; 8201; 8202;
   8232; 8233; 8239; 8287; 12288; 65279]%N.

Definition is_white_point (cp : N) : bool := existsb (N.eqb cp) white_space.

Definition white2 (c1 c2 : ascii) : bool :=
  two_bytes c1 c2 && is_white_point (decode2 c1 c2).

Definition white3 (c1 c2 c3 : ascii) : bool :=
  three_bytes c1 c2 c3 && is_white_point (decode3 c1 c2 c3).

(** [s] consists of white space only. *)
Fixpoint white_only (s : string) : bool :=
  match s with
  | EmptyString => true
  | String c1 s1 =>
      if white1 c1 then white_only s1
      else
        match s1 with
        | String c2 s2 =>
            if white2 c1 c2 then white_only s2
            else
              match s2 with
              | String c3 s3 => white3 c1 c2 c3 && white_only s3
              | EmptyString => false
              end
        | EmptyString => false
        end
  end.

Fixpoint trimStart (s : string) : string :=
  match s with
  | EmptyString => EmptyString
  | String c1 s1 =>
      if white1 c1 then trimStart s1
      else
        match s1 with
        | String c2 s2 =>
            if white2 c1 c2 then trimStart s2
            else
              match s2 with
              | String c3 s3 => if white3 c1 c2 c3 then trimStart s3 else s
              | EmptyString => s
              end
        | EmptyString => s
        end
  end.

(** The string is cut where only white space follows. *)
Fixpoint trimEnd (s : string) : string :=
  match s with
  | EmptyString => EmptyString
  | String c s' => if white_only s then EmptyString else String c (trimEnd s')
  end.

(** [s.trim()] *)
Definition trim (s : string) : string := trimEnd (trimStart s).

(** *** Upper case

    The code points above 127 that [toUpperCase] changes, each with the code
    points it becomes (SpecialCasing included: U+00DF gives SS). *)
Definition upper_table : list (N * list N) := [
  (181, [924]); (223, [83; 83]); (224, [192]); (225, [193]);
  (226, [194]); (227, [195]); (228, [196]); (229, [197]);
  (230, [198]); (231, [199]); (232, [200]); (233, [201]);
  (234, [202]); (235, [203]); (236, [204]); (237, [205]);
  (238, [206]); (239, [207]); (240, [208]); (241, [209]);
  (242, [210]); (243, [211]); (244, [212]); (245, [213]);
  (246, [214]); (248, [216]); (249, [217]); (250, [218]);
  (251, [219]); (252, [220]); (253, [221]); (254, [222]);
  (255, [376]); (257, [256]); (259, [258]); (261, [260]);
  (263, [262]); (265, [264]); (267, [266]); (269, [268]);
  (271, [270]); (273, [272]); (275, [274]); (277, [276]);
  (279, [278]); (281, [280]); (283, [282]); (285, [284]);
  (287, [286]); (289, [288]); (291, [290]); (293, [292]);
  (295, [294]); (297, [296]); (299, [298]); (301, [300]);
  (303, [302]); (305, [73]); (307, [306]); (309, [308]);
  (311, [310]); (314, [313]); (316, [315]); (318, [317]);
  (320, [319]); (322, [321]); (324, [323]); (326, [325]);
  (328, [327]); (329, [700; 78]); (331, [330]); (333, [332]);
  (335, [334]); (337, [336]); (339, [338]); (341, [340]);
  (343, [342]); (345, [344]); (347, [346]); (349, [348]);
  (351, [350]); (353, [352]); (355, [354]); (357, [356]);
  (359, [358]); (361, [360]); (363, [362]); (365, [364]);
  (367, [366]); (369, [368]); (371, [370]); (373, [372]);
  (375, [374]); (378, [377]); (380, [379]); (382, [381]);
  (383, [83]); (384, [579]); (387, [386]); (389, [388]);
  (392, [391]); (396, [395]); (402, [401]); (405, [502]);
  (409, [408]); (410, [573]); (414, [544]); (417, [416]);
  (419, [418]); (421, [420]); (424, [423]); (429, [428]);
  (432, [431]); (436, [435]); (438, [437]); (441, [440]);
  (445, [444]); (447, [503]); (453, [452]); (454, [452]);
  (456, [455]); (457, [455]); (459, [458]); (460, [458]);
  (462, [461]); (464, [463]); (466, [465]); (468, [467]);
  (470, [469]); (472, [471]); (474, [473]); (476, [475]);
  (477, [398]); (479, [478]); (481, [480]); (483, [482]);
  (485, [484]); (487, [486]); (489, [488]); (491, [490]);
  (493, [492]); (495, [494]); (496, [74; 780]); (498, [497]);
  (499, [497]); (501, [500]); (505, [504]); (507, [506]);
  (509, [508]); (511, [510]); (513, [512]); (515, [514]);
  (517, [516]); (519, [518]); (521, [520]); (523, [522]);
  (525, [524]); (527, [526]); (529, [528]); (531, [530]);
  (533, [532]); (535, [534]); (537, [536]); (539, [538]);
  (541, [540]); (543, [542]); (547, [546]); (549, [548]);
  (551, [550]); (553, [552]); (555, [554]); (557, [556]);
  (559, [558]); (561, [560]); (563, [562]); (572, [571]);
  (575, [11390]); (576, [11391]); (578, [577]); (583, [582]);
  (585, [584]); (587, [586]); (589, [588]); (591, [590]);
  (592, [11375]); (593, [11373]); (594, [11376]); (595, [385]);
  (596, [390]); (598, [393]); (599, [394]); (601, [399]);
  (603, [400]); (604, [42923]); (608, [403]); (609, [42924]);
  (611, [404]); (613, [42893]); (614, [42922]); (616, [407]);
  (617, [406]); (618, [42926]); (619, [11362]); (620, [42925]);
  (623, [412]); (625, [11374]); (626, [413]); (629, [415]);
  (637, [11364]); (640, [422]); (642, [42949]); (643, [425]);
  (647, [42929]); (648, [430]); (649, [580]); (650, [433]);
  (651, [434]); (652, [581]); (658, [439]); (669, [42930]);
  (670, [42928]); (837, [921]); (881, [880]); (883, [882]);
  (887, [886]); (891, [1021]); (892, [1022]); (893, [1023]);
  (912, [921; 776; 769]); (940, [902]); (941, [904]); (942, [905]);
  (943, [906]); (944, [933; 776; 769]); (945, [913]); (946, [914]);
  (947, [915]); (948, [916]); (949, [917]); (950, [918]);
  (951, [919]); (952, [920]); (953, [921]); (954, [922]);
  (955, [923]); (956, [924]); (957, [925]); (958, [926]);
  (959, [927]); (960, [928]); (961, [929]); (962, [931]);
  (963, [931]); (964, [932]); (965, [933]); (966, [934]);
  (967, [935]); (968, [936]); (969, [937]); (970, [938]);
  (971, [939]); (972, [908]); (973, [910]); (974, [911]);
  (976, [914]); (977, [920]); (981, [934]); (982, [928]);
  (983, [975]); (985, [984]); (987, [986]); (989, [988]);
  (991, [990]); (993, [992]); (995, [994]); (997, [996]);
  (999, [998]); (1001, [1000]); (1003, [1002]); (1005, [1004]);
  (1007, [1006]); (1008, [922]); (1009, [929]); (1010, [1017]);
  (1011, [895]); (1013, [917]); (1016, [1015]); (1019, [1018]);
  (1072, [1040]); (1073, [1041]); (1074, [1042]); (1075, [1043]);
  (1076, [1044]); (1077, [1045]); (1078, [1046]); (1079, [1047]);
  (1080, [1048]); (1081, [1049]); (1082, [1050]); (1083, [1051]);
  (1084, [1052]); (1085, [1053]); (1086, [1054]); (1087, [1055]);
  (1088, [1056]); (1089, [1057]); (1090, [1058]); (1091, [1059]);
  (1092, [1060]); (1093, [1061]); (1094, [1062]); (1095, [1063]);
  (1096, [1064]); (1097, [1065]); (1098, [1066]); (1099, [1067]);
  (1100, [1068]); (1101, [1069]); (1102, [1070]); (1103, [1071]);
  (1104, [1024]); (1105, [1025]); (1106, [1026]); (1107, [1027]);
  (1108, [1028]); (1109, [1029]); (1110, [1030]); (1111, [1031]);
  (1112, [1032]); (1113, [1033]); (1114, [1034]); (1115, [1035]);
  (1116, [1036]); (1117, [1037]); (1118, [1038]); (1119, [1039]);
  (1121, [1120]); (1123, [1122]); (1125, [1124]); (1127, [1126]);
  (1129, [1128]); (1131, [1130]); (1133, [1132]); (1135, [1134]);
  (1137, [1136]); (1139, [1138]); (1141, [1140]); (1143, [1142]);
  (1145, [1144]); (1147, [1146]); (1149, [1148]); (1151, [1150]);
  (1153, [1152]); (1163, [1162]); (1165, [1164]); (1167, [1166]);
  (1169, [1168]); (1171, [1170]); (1173, [1172]); (1175, [1174]);
  (1177, [1176]); (1179, [1178]); (1181, [1180]); (1183, [1182]);
  (1185, [1184]); (1187, [1186]); (1189, [1188]); (1191, [1190]);
  (1193, [1192]); (1195, [1194]); (1197, [1196]); (1199, [1198]);
  (1201, [1200]); (1203, [1202]); (1205, [1204]); (1207, [1206]);
  (1209, [1208]); (1211, [1210]); (1213, [1212]); (1215, [1214]);
  (1218, [1217]); (1220, [1219]); (1222, [1221]); (1224, [1223]);
  (1226, [1225]); (1228, [1227]); (1230, [1229]); (1231, [1216]);
  (1233, [1232]); (1235, [1234]); (1237, [1236]); (1239, [1238]);
  (1241, [1240]); (1243, [1242]); (1245, [1244]); (1247, [1246]);
  (1249, [1248]); (1251, [1250]); (1253, [1252]); (1255, [1254]);
  (1257, [1256]); (1259, [1258]); (1261, [1260]); (1263, [1262]);
  (1265, [1264]); (1267, [1266]); (1269, [1268]); (1271, [1270]);
  (1273, [1272]); (1275, [1274]); (1277, [1276]); (1279, [1278]);
  (1281, [1280]); (1283, [1282]); (1285, [1284]); (1287, [1286]);
  (1289, [1288]); (1291, [1290]); (1293, [1292]); (1295, [1294]);
  (1297, [1296]); (1299, [1298]); (1301, [1300]); (1303, [1302]);
  (1305, [1304]); (1307, [1306]); (1309, [1308]); (1311, [1310]);
  (1313, [1312]); (1315, [1314]); (1317, [1316]); (1319, [1318]);
  (1321, [1320]); (1323, [1322]); (1325, [1324]); (1327, [1326]);
  (1377, [1329]); (1378, [1330]); (1379, [1331]); (1380, [1332]);
  (1381, [1333]); (1382, [1334]); (1383, [1335]); (1384, [1336]);
  (1385, [1337]); (1386, [1338]); (1387, [1339]); (1388, [1340]);
  (1389, [1341]); (1390, [1342]); (1391, [1343]); (1392, [1344]);
  (1393, [1345]); (1394, [1346]); (1395, [1347]); (1396, [1348]);
  (1397, [1349]); (1398, [1350]); (1399, [1351]); (1400, [1352]);
  (1401, [1353]); (1402, [1354]); (1403, [1355]); (1404, [1356]);
  (1405, [1357]); (1406, [1358]); (1407, [1359]); (1408, [1360]);
  (1409, [1361]); (1410, [1362]); (1411, [1363]); (1412, [1364]);
  (1413, [1365]); (1414, [1366]); (1415, [1333; 1362]); (4304, [7312]);
  (4305, [7313]); (4306, [7314]); (4307, [7315]); (4308, [7316]);
  (4309, [7317]); (4310, [7318]); (4311, [7319]); (4312, [7320]);
  (4313, [7321]); (4314, [7322]); (4315, [7323]); (4316, [7324]);
  (4317, [7325]); (4318, [7326]); (4319, [7327]); (4320, [7328]);
  (4321, [7329]); (4322, [7330]); (4323, [7331]); (4324, [7332]);
  (4325, [7333]); (4326, [7334]); (4327, [7335]); (4328, [7336]);
  (4329, [7337]); (4330, [7338]); (4331, [7339]); (4332, [7340]);
  (4333, [7341]); (4334, [7342]); (4335, [7343]); (4336, [7344]);
  (4337, [7345]); (4338, [7346]); (4339, [7347]); (4340, [7348]);
  (4341, [7349]); (4342, [7350]); (4343, [7351]); (4344, [7352]);
  (4345, [7353]); (4346, [7354]); (4349, [7357]); (4350, [7358]);
  (4351, [7359]); (5112, [5104]); (5113, [5105]); (5114, [5106]);
  (5115, [5107]); (5116, [5108]); (5117, [5109]); (7296, [1042]);
  (7297, [1044]); (7298, [1054]); (7299, [1057]); (7300, [1058]);
  (7301, [1058]); (7302, [1066]); (7303, [1122]); (7304, [42570]);
  (7545, [42877]); (7549, [11363]); (7566, [42950]); (7681, [7680]);
  (7683, [7682]); (7685, [7684]); (7687, [7686]); (7689, [7688]);
  (7691, [7690]); (7693, [7692]); (7695, [7694]); (7697, [7696]);
  (7699, [7698]); (7701, [7700]); (7703, [7702]); (7705, [7704]);
  (7707, [7706]); (7709, [7708]); (7711, [7710]); (7713, [7712]);
  (7715, [7714]); (7717, [7716]); (7719, [7718]); (7721, [7720]);
  (7723, [7722]); (7725, [7724]); (7727, [7726]); (7729, [7728]);
  (7731, [7730]); (7733, [7732]); (7735, [7734]); (7737, [7736]);
  (7739, [7738]); (7741, [7740]); (7743, [7742]); (7745, [7744]);
  (7747, [7746]); (7749, [7748]); (7751, [7750]); (7753, [7752]);
  (7755, [7754]); (7757, [7756]); (7759, [7758]); (7761, [7760]);
  (7763, [7762]); (7765, [7764]); (7767, [7766]); (7769, [7768]);
  (7771, [7770]); (7773, [7772]); (7775, [7774]); (7777, [7776]);
  (7779, [7778]); (7781, [7780]); (7783, [7782]); (7785, [7784]);
  (7787, [7786]); (7789, [7788]); (7791, [7790]); (7793, [7792]);
  (7795, [7794]); (7797, [7796]); (7799, [7798]); (7801, [7800]);
  (7803, [7802]); (7805, [7804]); (7807, [7806]); (7809, [7808]);
  (7811, [7810]); (7813, [7812]); (7815, [7814]); (7817, [7816]);
  (7819, [7818]); (7821, [7820]); (7823, [7822]); (7825, [7824]);
  (7827, [7826]); (7829, [7828]); (7830, [72; 817]); (7831, [84; 776]);
  (7832, [87; 778]); (7833, [89; 778]); (7834, [65; 702]); (7835, [7776]);
  (7841, [7840]); (7843, [7842]); (7845, [7844]); (7847, [7846]);
  (7849, [7848]); (7851, [7850]); (7853, [7852]); (7855, [7854]);
  (7857, [7856]); (7859, [7858]); (7861, [7860]); (7863, [7862]);
  (7865, [7864]); (7867, [7866]); (7869, [7868]); (7871, [7870]);
  (7873, [7872]); (7875, [7874]); (7877, [7876]); (7879, [7878]);
  (7881, [7880]); (7883, [7882]); (7885, [7884]); (7887, [7886]);
  (7889, [7888]); (7891, [7890]); (7893, [7892]); (7895, [7894]);
  (7897, [7896]); (7899, [7898]); (7901, [7900]); (7903, [7902]);
  (7905, [7904]); (7907, [7906]); (7909, [7908]); (7911, [7910]);
  (7913, [7912]); (7915, [7914]); (7917, [7916]); (7919, [7918]);
  (7921, [7920]); (7923, [7922]); (7925, [7924]); (7927, [7926]);
  (7929, [7928]); (7931, [7930]); (7933, [7932]); (7935, [7934]);
  (7936, [7944]); (7937, [7945]); (7938, [7946]); (7939, [7947]);
  (7940, [7948]); (7941, [7949]); (7942, [7950]); (7943, [7951]);
  (7952, [7960]); (7953, [7961]); (7954, [7962]); (7955, [7963]);
  (7956, [7964]); (7957, [7965]); (7968, [7976]); (7969, [7977]);
  (7970, [7978]); (7971, [7979]); (7972, [7980]); (7973, [7981]);
  (7974, [7982]); (7975, [7983]); (7984, [7992]); (7985, [7993]);
  (7986, [7994]); (7987, [7995]); (7988, [7996]); (7989, [7997]);
  (7990, [7998]); (7991, [7999]); (8000, [8008]); (8001, [8009]);
  (8002, [8010]); (8003, [8011]); (8004, [8012]); (8005, [8013]);
  (8016, [933; 787]); (8017, [8025]); (8018, [933; 787; 768]); (8019, [8027]);
  (8020, [933; 787; 769]); (8021, [8029]); (8022, [933; 787; 834]); (8023, [8031]);
  (8032, [8040]); (8033, [8041]); (8034, [8042]); (8035, [8043]);
  (8036, [8044]); (8037, [8045]); (8038, [8046]); (8039, [8047]);
  (8048, [8122]); (8049, [8123]); (8050, [8136]); (8051, [8137]);
  (8052, [8138]); (8053, [8139]); (8054, [8154]); (8055, [8155]);
  (8056, [8184]); (8057, [8185]); (8058, [8170]); (8059, [8171]);
  (8060, [8186]); (8061, [8187]); (8064, [7944; 921]); (8065, [7945; 921]);
  (8066, [7946; 921]); (8067, [7947; 921]); (8068, [7948; 921]); (8069, [7949; 921]);
  (8070, [7950; 921]); (8071, [7951; 921]); (8072, [7944; 921]); (8073, [7945; 921]);
  (8074, [7946; 921]); (8075, [7947; 921]); (8076, [7948; 921]); (8077, [7949; 921]);
  (8078, [7950; 921]); (8079, [7951; 921]); (8080, [7976; 921]); (8081, [7977; 921]);
  (8082, [7978; 921]); (8083, [7979; 921]); (8084, [7980; 921]); (8085, [7981; 921]);
  (8086, [7982; 921]); (8087, [7983; 921]); (8088, [7976; 921]); (8089, [7977; 921]);
  (8090, [7978; 921]); (8091, [7979; 921]); (8092, [7980; 921]); (8093, [7981; 921]);
  (8094, [7982; 921]); (8095, [7983; 921]); (8096, [8040; 921]); (8097, [8041; 921]);
  (8098, [8042; 921]); (8099, [8043; 921]); (8100, [8044; 921]); (8101, [8045; 921]);
  (8102, [8046; 921]); (8103, [8047; 921]); (8104, [8040; 921]); (8105, [8041; 921]);
  (8106, [8042; 921]); (8107, [8043; 921]); (8108, [8044; 921]); (8109, [8045; 921]);
  (8110, [8046; 921]); (8111, [8047; 921]); (8112, [8120]); (8113, [8121]);
  (8114, [8122; 921]); (8115, [913; 921]); (8116, [902; 921]); (8118, [913; 834]);
  (8119, [913; 834; 921]); (8124, [913; 921]); (8126, [921]); (8130, [8138; 921]);
  (8131, [919; 921]); (8132, [905; 921]); (8134, [919; 834]); (8135, [919; 834; 921]);
  (8140, [919; 921]); (8144, [8152]); (8145, [8153]); (8146, [921; 776; 768]);
  (8147, [921; 776; 769]); (8150, [921; 834]); (8151, [921; 776; 834]); (8160, [8168]);
  (8161, [8169]); (8162, [933; 776; 768]); (8163, [933; 776; 769]); (8164, [929; 787]);
  (8165, [8172]); (8166, [933; 834]); (8167, [933; 776; 834]); (8178, [8186; 921]);
  (8179, [937; 921]); (8180, [911; 921]); (8182, [937; 834]); (8183, [937; 834; 921]);
  (8188, [937; 921]); (8526, [8498]); (8560, [8544]); (8561, [8545]);
  (8562, [8546]); (8563, [8547]); (8564, [8548]); (8565, [8549]);
  (8566, [8550]); (8567, [8551]); (8568, [8552]); (8569, [8553]);
  (8570, [8554]); (8571, [8555]); (8572, [8556]); (8573, [8557]);
  (8574, [8558]); (8575, [8559]); (8580, [8579]); (9424, [9398]);
  (9425, [9399]); (9426, [9400]); (9427, [9401]); (9428, [9402]);
  (9429, [9403]); (9430, [9404]); (9431, [9405]); (9432, [9406]);
  (9433, [9407]); (9434, [9408]); (9435, [9409]); (9436, [9410]);
  (9437, [9411]); (9438, [9412]); (9439, [9413]); (9440, [9414]);
  (9441, [9415]); (9442, [9416]); (9443, [9417]); (9444, [9418]);
  (9445, [9419]); (9446, [9420]); (9447, [9421]); (9448, [9422]);
  (9449, [9423]); (11312, [11264]); (11313, [11265]); (11314, [11266]);
  (11315, [11267]); (11316, [11268]); (11317, [11269]); (11318, [11270]);
  (11319, [11271]); (11320, [11272]); (11321, [11273]); (11322, [11274]);
  (11323, [11275]); (11324, [11276]); (11325, [11277]); (11326, [11278]);
  (11327, [11279]); (11328, [11280]); (11329, [11281]); (11330, [11282]);
  (11331, [11283]); (11332, [11284]); (11333, [11285]); (11334, [11286]);
  (11335, [11287]); (11336, [11288]); (11337, [11289]); (11338, [11290]);
  (11339, [11291]); (11340, [11292]); (11341, [11293]); (11342, [11294]);
  (11343, [11295]); (11344, [11296]); (11345, [11297]); (11346, [11298]);
  (11347, [11299]); (11348, [11300]); (11349, [11301]); (11350, [11302]);
  (11351, [11303]); (11352, [11304]); (11353, [11305]); (11354, [11306]);
  (11355, [11307]); (11356, [11308]); (11357, [11309]); (11358, [11310]);
  (11359, [11311]); (11361, [11360]); (11365, [570]); (11366, [574]);
  (11368, [11367]); (11370, [11369]); (11372, [11371]); (11379, [11378]);
  (11382, [11381]); (11393, [11392]); (11395, [11394]); (11397, [11396]);
  (11399, [11398]); (11401, [11400]); (11403, [11402]); (11405, [11404]);
  (11407, [11406]); (11409, [11408]); (11411, [11410]); (11413, [11412]);
  (11415, [11414]); (11417, [11416]); (11419, [11418]); (11421, [11420]);
  (11423, [11422]); (11425, [11424]); (11427, [11426]); (11429, [11428]);
  (11431, [11430]); (11433, [11432]); (11435, [11434]); (11437, [11436]);
  (11439, [11438]); (11441, [11440]); (11443, [11442]); (11445, [11444]);
  (11447, [11446]); (11449, [11448]); (11451, [11450]); (11453, [11452]);
  (11455, [11454]); (11457, [11456]); (11459, [11458]); (11461, [11460]);
  (11463, [11462]); (11465, [11464]); (11467, [11466]); (11469, [11468]);
  (11471, [11470]); (11473, [11472]); (11475, [11474]); (11477, [11476]);
  (11479, [11478]); (11481, [11480]); (11483, [11482]); (11485, [11484]);
  (11487, [11486]); (11489, [11488]); (11491, [11490]); (11500, [11499]);
  (11502, [11501]); (11507, [11506]); (11520, [4256]); (11521, [4257]);
  (11522, [4258]); (11523, [4259]); (11524, [4260]); (11525, [4261]);
  (11526, [4262]); (11527, [4263]); (11528, [4264]); (11529, [4265]);
  (11530, [4266]); (11531, [4267]); (11532, [4268]); (11533, [4269]);
  (11534, [4270]); (11535, [4271]); (11536, [4272]); (11537, [4273]);
  (11538, [4274]); (11539, [4275]); (11540, [4276]); (11541, [4277]);
  (11542, [4278]); (11543, [4279]); (11544, [4280]); (11545, [4281]);
  (11546, [4282]); (11547, [4283]); (11548, [4284]); (11549, [4285]);
  (11550, [4286]); (11551, [4287]); (11552, [4288]); (11553, [4289]);
  (11554, [4290]); (11555, [4291]); (11556, [4292]); (11557, [4293]);
  (11559, [4295]); (11565, [4301]); (42561, [42560]); (42563, [42562]);
  (42565, [42564]); (42567, [42566]); (42569, [42568]); (42571, [42570]);
  (42573, [42572]); (42575, [42574]); (42577, [42576]); (42579, [42578]);
  (42581, [42580]); (42583, [42582]); (42585, [42584]); (42587, [42586]);
  (42589, [42588]); (42591, [42590]); (42593, [42592]); (42595, [42594]);
  (42597, [42596]); (42599, [42598]); (42601, [42600]); (42603, [42602]);
  (42605, [42604]); (42625, [42624]); (42627, [42626]); (42629, [42628]);
  (42631, [42630]); (42633, [42632]); (42635, [42634]); (42637, [42636]);
  (42639, [42638]); (42641, [42640]); (42643, [42642]); (42645, [42644]);
  (42647, [42646]); (42649, [42648]); (42651, [42650]); (42787, [42786]);
  (42789, [42788]); (42791, [42790]); (42793, [42792]); (42795, [42794]);
  (42797, [42796]); (42799, [42798]); (42803, [42802]); (42805, [42804]);
  (42807, [42806]); (42809, [42808]); (42811, [42810]); (42813, [42812]);
  (42815, [42814]); (42817, [42816]); (42819, [42818]); (42821, [42820]);
  (42823, [42822]); (42825, [42824]); (42827, [42826]); (42829, [42828]);
  (42831, [42830]); (42833, [42832]); (42835, [42834]); (42837, [42836]);
  (42839, [42838]); (42841, [42840]); (42843, [42842]); (42845, [42844]);
  (42847, [42846]); (42849, [42848]); (42851, [42850]); (42853, [42852]);
  (42855, [42854]); (42857, [42856]); (42859, [42858]); (42861, [42860]);
  (42863, [42862]); (42874, [42873]); (42876, [42875]); (42879, [42878]);
  (42881, [42880]); (42883, [42882]); (42885, [42884]); (42887, [42886]);
  (42892, [42891]); (42897, [42896]); (42899, [42898]); (42900, [42948]);
  (42903, [42902]); (42905, [42904]); (42907, [42906]); (42909, [42908]);
  (42911, [42910]); (42913, [42912]); (42915, [42914]); (42917, [42916]);
  (42919, [42918]); (42921, [42920]); (42933, [42932]); (42935, [42934]);
  (42937, [42936]); (42939, [42938]); (42941, [42940]); (42943, [42942]);
  (42945, [42944]); (42947, [42946]); (42952, [42951]); (42954, [42953]);
  (42961, [42960]); (42967, [42966]); (42969, [42968]); (42998, [42997]);
  (43859, [42931]); (43888, [5024]); (43889, [5025]); (43890, [5026]);
  (43891, [5027]); (43892, [5028]); (43893, [5029]); (43894, [5030]);
  (43895, [5031]); (43896, [5032]); (43897, [5033]); (43898, [5034]);
  (43899, [5035]); (43900, [5036]); (43901, [5037]); (43902, [5038]);
  (43903, [5039]); (43904, [5040]); (43905, [5041]); (43906, [5042]);
  (43907, [5043]); (43908, [5044]); (43909, [5045]); (43910, [5046]);
  (43911, [5047]); (43912, [5048]); (43913, [5049]); (43914, [5050]);
  (43915, [5051]); (43916, [5052]); (43917, [5053]); (43918, [5054]);
  (43919, [5055]); (43920, [5056]); (43921, [5057]); (43922, [5058]);
  (43923, [5059]); (43924, [5060]); (43925, [5061]); (43926, [5062]);
  (43927, [5063]); (43928, [5064]); (43929, [5065]); (43930, [5066]);
  (43931, [5067]); (43932, [5068]); (43933, [5069]); (43934, [5070]);
  (43935, [5071]); (43936, [5072]); (43937, [5073]); (43938, [5074]);
  (43939, [5075]); (43940, [5076]); (43941, [5077]); (43942, [5078]);
  (43943, [5079]); (43944, [5080]); (43945, [5081]); (43946, [5082]);
  (43947, [5083]); (43948, [5084]); (43949, [5085]); (43950, [5086]);
  (43951, [5087]); (43952, [5088]); (43953, [5089]); (43954, [5090]);
  (43955, [5091]); (43956, [5092]); (43957, [5093]); (43958, [5094]);
  (43959, [5095]); (43960, [5096]); (43961, [5097]); (43962, [5098]);
  (43963, [5099]); (43964, [5100]); (43965, [5101]); (43966, [5102]);
  (43967, [5103]); (64256, [70; 70]); (64257, [70; 73]); (64258, [70; 76]);
  (64259, [70; 70; 73]); (64260, [70; 70; 76]); (64261, [83; 84]); (64262, [83; 84]);
  (64275, [1348; 1350]); (64276, [1348; 1333]); (64277, [1348; 1339]); (64278, [1358; 1350]);
  (64279, [1348; 1341]); (65345, [65313]); (65346, [65314]); (65347, [65315]);
  (65348, [65316]); (65349, [65317]); (65350, [65318]); (65351, [65319]);
  (65352, [65320]); (65353, [65321]); (65354, [65322]); (65355, [65323]);
  (65356, [65324]); (65357, [65325]); (65358, [65326]); (65359, [65327]);
  (65360, [65328]); (65361, [65329]); (65362, [65330]); (65363, [65331]);
  (65364, [65332]); (65365, [65333]); (65366, [65334]); (65367, [65335]);
  (65368, [65336]); (65369, [65337]); (65370, [65338]); (66600, [66560]);
  (66601, [66561]); (66602, [66562]); (66603, [66563]); (66604, [66564]);
  (66605, [66565]); (66606, [66566]); (66607, [66567]); (66608, [66568]);
  (66609, [66569]); (66610, [66570]); (66611, [66571]); (66612, [66572]);
  (66613, [66573]); (66614, [66574]); (66615, [66575]); (66616, [66576]);
  (66617, [66577]); (66618, [66578]); (66619, [66579]); (66620, [66580]);
  (66621, [66581]); (66622, [66582]); (66623, [66583]); (66624, [66584]);
  (66625, [66585]); (66626, [66586]); (66627, [66587]); (66628, [66588]);
  (66629, [66589]); (66630, [66590]); (66631, [66591]); (66632, [66592]);
  (66633, [66593]); (66634, [66594]); (66635, [66595]); (66636, [66596]);
  (66637, [66597]); (66638, [66598]); (66639, [66599]); (66776, [66736]);
  (66777, [66737]); (66778, [66738]); (66779, [66739]); (66780, [66740]);
  (66781, [66741]); (66782, [66742]); (66783, [66743]); (66784, [66744]);
  (66785, [66745]); (66786, [66746]); (66787, [66747]); (66788, [66748]);
  (66789, [66749]); (66790, [66750]); (66791, [66751]); (66792, [66752]);
  (66793, [66753]); (66794, [66754]); (66795, [66755]); (66796, [66756]);
  (66797, [66757]); (66798, [66758]); (66799, [66759]); (66800, [66760]);
  (66801, [66761]); (66802, [66762]); (66803, [66763]); (66804, [66764]);
  (66805, [66765]); (66806, [66766]); (66807, [66767]); (66808, [66768]);
  (66809, [66769]); (66810, [66770]); (66811, [66771]); (66967, [66928]);
  (66968, [66929]); (66969, [66930]); (66970, [66931]); (66971, [66932]);
  (66972, [66933]); (66973, [66934]); (66974, [66935]); (66975, [66936]);
  (66976, [66937]); (66977, [66938]); (66979, [66940]); (66980, [66941]);
  (66981, [66942]); (66982, [66943]); (66983, [66944]); (66984, [66945]);
  (66985, [66946]); (66986, [66947]); (66987, [66948]); (66988, [66949]);
  (66989, [66950]); (66990, [66951]); (66991, [66952]); (66992, [66953]);
  (66993, [66954]); (66995, [66956]); (66996, [66957]); (66997, [66958]);
  (66998, [66959]); (66999, [66960]); (67000, [66961]); (67001, [66962]);
  (67003, [66964]); (67004, [66965]); (68800, [68736]); (68801, [68737]);
  (68802, [68738]); (68803, [68739]); (68804, [68740]); (68805, [68741]);
  (68806, [68742]); (68807, [68743]); (68808, [68744]); (68809, [68745]);
  (68810, [68746]); (68811, [68747]); (68812, [68748]); (68813, [68749]);
  (68814, [68750]); (68815, [68751]); (68816, [68752]); (68817, [68753]);
  (68818, [68754]); (68819, [68755]); (68820, [68756]); (68821, [68757]);
  (68822, [68758]); (68823, [68759]); (68824, [68760]); (68825, [68761]);
  (68826, [68762]); (68827, [68763]); (68828, [68764]); (68829, [68765]);
  (68830, [68766]); (68831, [68767]); (68832, [68768]); (68833, [68769]);
  (68834, [68770]); (68835, [68771]); (68836, [68772]); (68837, [68773]);
  (68838, [68774]); (68839, [68775]); (68840, [68776]); (68841, [68777]);
  (68842, [68778]); (68843, [68779]); (68844, [68780]); (68845, [68781]);
  (68846, [68782]); (68847, [68783]); (68848, [68784]); (68849, [68785]);
  (68850, [68786]); (71872, [71840]); (71873, [71841]); (71874, [71842]);
  (71875, [71843]); (71876, [71844]); (71877, [71845]); (71878, [71846]);
  (71879, [71847]); (71880, [71848]); (71881, [71849]); (71882, [71850]);
  (71883, [71851]); (71884, [71852]); (71885, [71853]); (71886, [71854]);
  (71887, [71855]); (71888, [71856]); (71889, [71857]); (71890, [71858]);
  (71891, [71859]); (71892, [71860]); (71893, [71861]); (71894, [71862]);
  (71895, [71863]); (71896, [71864]); (71897, [71865]); (71898, [71866]);
  (71899, [71867]); (71900, [71868]); (71901, [71869]); (71902, [71870]);
  (71903, [71871]); (93792, [93760]); (93793, [93761]); (93794, [93762]);
  (93795, [93763]); (93796, [93764]); (93797, [93765]); (93798, [93766]);
  (93799, [93767]); (93800, [93768]); (93801, [93769]); (93802, [93770]);
  (93803, [93771]); (93804, [93772]); (93805, [93773]); (93806, [93774]);
  (93807, [93775]); (93808, [93776]); (93809, [93777]); (93810, [93778]);
  (93811, [93779]); (93812, [93780]); (93813, [93781]); (93814, [93782]);
  (93815, [93783]); (93816, [93784]); (93817, [93785]); (93818, [93786]);
  (93819, [93787]); (93820, [93788]); (93821, [93789]); (93822, [93790]);
  (93823, [93791]); (125218, [125184]); (125219, [125185]); (125220, [125186]);
  (125221, [125187]); (125222, [125188]); (125223, [125189]); (125224, [125190]);
  (125225, [125191]); (125226, [125192]); (125227, [125193]); (125228, [125194]);
  (125229, [125195]); (125230, [125196]); (125231, [125197]); (125232, [125198]);
  (125233, [125199]); (125234, [125200]); (125235, [125201]); (125236, [125202]);
  (125237, [125203]); (125238, [125204]); (125239, [125205]); (125240, [125206]);
  (125241, [125207]); (125242, [125208]); (125243, [125209]); (125244, [125210]);
  (125245, [125211]); (125246, [125212]); (125247, [125213]); (125248, [125214]);
  (125249, [125215]); (125250, [125216]); (125251, [125217])
]%N.

(** The upper-case form of the character of code point [cp], whose bytes are
    [same]. *)
Definition upper_of (cp : N) (same : string) : string :=
  match List.find (fun e => N.eqb (fst e) cp) upper_table with
  | Some e => encode_all (snd e)
  | None => same
  end.

(** [s.toUpperCase()], character by character; a byte that starts no
    character is kept. *)
Fixpoint toUpperCase (s : string) : string :=
  match s with
  | EmptyString => EmptyString
  | String c1 s1 =>
      let one := String (upper_ascii c1) (toUpperCase s1) in
      match s1 with
      | String c2 s2 =>
          if two_bytes c1 c2 then
            upper_of (decode2 c1 c2) (String c1 (String c2 EmptyString))
            ++ toUpperCase s2
          else
            match s2 with
            | String c3 s3 =>
                if three_bytes c1 c2 c3 then
                  upper_of (decode3 c1 c2 c3)
                    (String c1 (String c2 (String c3 EmptyString)))
                  ++ toUpperCase s3
                else
                  match s3 with
                  | String c4 s4 =>
                      if four_bytes c1 c2 c3 c4 then
                        upper_of (decode4 c1 c2 c3 c4)
                          (String c1 (String c2 (String c3 (String c4 EmptyString))))
                        ++ toUpperCase s4
                      else one
                  | EmptyString => one
                  end
            | EmptyString => one
            end
      | EmptyString => one
      end
  end.

(** The lower-case form of a room code, as a client may type it: A-Z to
    a-z; the server never computes it. *)
Fixpoint toLowerCase (s : string) : string :=
  match s with
  | EmptyString => EmptyString
  | String c s' => String (lower_char c) (toLowerCase s')
  end.

(** [s.slice(from, to)] for [0 <= from <= to], on a string of characters
    below 128 (the server slices the text of a number); an end past the
    length of [s] is clamped. *)
Definition slice (from to : nat) (s : string) : string :=
  substring from (to - from) s.

(** The characters a room code is made of: [0-9A-Z]. *)
Definition is_code_char (c : ascii) : bool := is_digit c || is_upper c.

Fixpoint all_chars (p : ascii -> bool) (s : string) : bool :=
  match s with
  | EmptyString => true
  | String c s' => p c && all_chars p s'
  end.

(** [arr.join(sep)] on strings *)
Fixpoint join (sep : string) (l : list string) : string :=
  match l with
  | [] => EmptyString
  | [x] => x
  | x :: l' => x ++ sep ++ join sep l'
  end.

End JsString.

(** ** [makeCode] *)
Module Code.
Import JsString.

(** [Math.random()] is a double in [0, 1).  [toString(36)] prints it as
    ["0"] when it is zero and otherwise as ["0."] followed by the base-36
    digits of its fraction: at least one digit, and no more than are needed
    to tell the double from its neighbours.  A draw of the random source is
    represented by that sequence of digits. *)
Definition Random := list nat.

Definition valid_random (r : Random) : Prop := Forall (fun d => d < 36) r.

Definition digit36 (d : nat) : ascii :=
  if (d <? 10)%nat then ascii_of_nat (48 + d) else ascii_of_nat (87 + d).

Fixpoint digits36 (r : list nat) : string :=
  match r with
  | [] => EmptyString
  | d :: r' => String (digit36 d) (digits36 r')
  end.

(** [Math.random().toString(36)] *)
Definition toString36 (r : Random) : string :=
  match r with
  | [] => "0"
  | _ => "0." ++ digits36 r
  end.

(** The base-36 expansion of the fraction [n / d] (with [n < d]) by long
    division, up to [fuel] digits: the digits [toString(36)] prints for a
    double whose expansion ends within its precision. *)
Fixpoint fraction36 (fuel : nat) (n d : N) : list nat :=
  match fuel with
  | O => []
  | S fuel' =>
      if (n =? 0)%N then []
      else N.to_nat (36 * n / d) :: fraction36 fuel' ((36 * n) mod d)%N d
  end.

(** [function makeCode(len = 4)], on the draw [r] of [Math.random()]. *)
Definition makeCode (len : nat) (r : Random) : string :=
  toUpperCase (slice 2 (2 + len) (toString36 r)).

End Code.

(** ** JavaScript values and coercions

  The arguments of an event are whatever the client sent: the values the
  JSON decoder of the transport produces, or nothing at all. *)
Module JsValue.
Import JsString.

(** A number is represented by what the handlers observe of it: whether it
    is falsy (zero or NaN) and the text [String(n)] gives. *)
Record JsNumber := mkNumber { num_falsy : bool; num_text : string }.

Inductive JsVal :=
| JUndefined
| JNull
| JBool (b : bool)
| JNum (n : JsNumber)
| JStr (s : string)
| JArr (items : list JsVal)
| JObj (props : list (string * JsVal)).

(** The outcome of an expression or handler that may throw. *)
Inductive Result (A : Type) :=
| Return (a : A)
| TypeError.
Arguments Return {A} a.
Arguments TypeError {A}.

#[global] Instance Result_ret : MRet Result := fun A a => Return a.
#[global] Instance Result_bind : MBind Result := fun A B f m =>
  match m with
  | Return a => f a
  | TypeError => TypeError
  end.

(** [ToBoolean] *)
Definition truthy (v : JsVal) : bool :=
  match v with
  | JUndefined | JNull => false
  | JBool b => b
  | JNum n => negb (num_falsy n)
  | JStr s => negb (bool_decide (s = ""))
  | JArr _ | JObj _ => true
  end.

(** [a || b] *)
Definition or_else (a b : JsVal) : JsVal := if truthy a then a else b.

(** The own property [k] of a decoded object. *)
Fixpoint own_prop (k : string) (props : list (string * JsVal)) : option JsVal :=
  match props with
  | [] => None
  | (k', v) :: props' => if decide (k = k') then Some v else own_prop k props'
  end.

(** [v.k] (the server reads [roomCode], [action] and [type], which no
    prototype defines): the own property of an object, [undefined] on any
    other value but [undefined] and [null], where the read throws. *)
Definition get (v : JsVal) (k : string) : Result JsVal :=
  match v with
  | JUndefined | JNull => TypeError
  | JObj props => Return (default JUndefined (own_prop k props))
  | _ => Return JUndefined
  end.

(** [String(v)].  An array goes through [Array.prototype.join], which
    prints [undefined] and [null] items as the empty string.  An object is
    converted by OrdinaryToPrimitive: a decoded object holds no function,
    so an own [toString] property is skipped as not callable,
    [Object.prototype.valueOf] returns the object itself, and the conversion
    throws; without an own [toString], [Object.prototype.toString] answers. *)
Fixpoint ToString (v : JsVal) : Result string :=
  match v with
  | JUndefined => Return "undefined"
  | JNull => Return "null"
  | JBool true => Return "true"
  | JBool false => Return "false"
  | JNum n => Return (num_text n)
  | JStr s => Return s
  | JArr items =>
      match
        (fix items_text (l : list JsVal) : Result (list string) :=
           match l with
           | [] => Return []
           | x :: l' =>
               match (match x with
                      | JUndefined | JNull => Return ""
                      | _ => ToString x
                      end) with
               | Return s =>
                   match items_text l' with
                   | Return ss => Return (s :: ss)
                   | TypeError => TypeError
                   end
               | TypeError => TypeError
               end
           end) items
      with
      | Return ss => Return (join "," ss)
      | TypeError => TypeError
      end
  | JObj props =>
      match own_prop "toString" props with
      | Some _ => TypeError
      | None => Return "[object Object]"
      end
  end.

(** [String(code || "").trim().toUpperCase()] *)
Definition normalize (code : JsVal) : Result string :=
  s ← ToString (or_else code (JStr ""));
  mret (toUpperCase (trim s)).

(** [action?.type === "swap-sides"] *)
Definition is_swap_sides (action : JsVal) : bool :=
  match action with
  | JObj props =>
      match own_prop "type" props with
      | Some (JStr t) => bool_decide (t = "swap-sides")
      | _ => false
      end
  | _ => false
  end.

End JsValue.

(** ** The registry and the handlers *)
Module Server.
Import JsString JsValue Code.

(** [socket.id] *)
Abbreviation SocketId := string.

Inductive Role := white | black.

#[global] Instance Role_eq_dec : EqDecision Role.
Proof. solve_decision. Defined.

(** [{ hostId, players: [socketId...], roles: { [socketId]: "white"|"black" } }] *)
Record Room := mkRoom {
  hostId : SocketId;
  players : list SocketId;
  roles : gmap string Role
}.

(** *** The object [rooms]

    The own properties of [rooms], in the order [Object.keys] lists them:
    the keys that are array indices first, by increasing value, then the
    other keys in the order they were added. *)
Abbreviation Rooms := (list (string * Room)).

Fixpoint decimal (acc : N) (s : string) : option N :=
  match s with
  | EmptyString => Some acc
  | String c s' =>
      if is_digit c then decimal (10 * acc + N.of_nat (code_of c - 48)) s'
      else None
  end.

(** The value of a key that is an array index: a canonical decimal numeral
    below [2^32 - 1]. *)
Definition array_index (k : string) : option N :=
  match k with
  | EmptyString => None
  | String c s' =>
      if bool_decide (c = "0"%char) && negb (bool_decide (s' = "")) then None
      else
        match decimal 0 k with
        | Some n => if (n <? 4294967295)%N then Some n else None
        | None => None
        end
  end.

Fixpoint insert_before (p : string -> bool) (k : string) (r : Room)
    (rs : Rooms) : Rooms :=
  match rs with
  | [] => [(k, r)]
  | (k', r') :: rs' =>
      if p k' then (k, r) :: rs else (k', r') :: insert_before p k r rs'
  end.

(** Adding the property [k], which [rs] does not have. *)
Definition add_property (k : string) (r : Room) (rs : Rooms) : Rooms :=
  match array_index k with
  | Some n =>
      insert_before
        (fun k' => match array_index k' with
                   | Some n' => (n <? n')%N
                   | None => true
                   end) k r rs
  | None => insert_before (fun _ => false) k r rs
  end.

(** [rooms[k]], for a key [k] that names no property of [Object.prototype]:
    the handlers look up keys that [toUpperCase] returned, or that
    [Object.keys(rooms)] listed. *)
Fixpoint rooms_get (k : string) (rs : Rooms) : option Room :=
  match rs with
  | [] => None
  | (k', r) :: rs' => if decide (k = k') then Some r else rooms_get k rs'
  end.

(** The room object held at [k] after its fields were assigned to. *)
Fixpoint rooms_replace (k : string) (r : Room) (rs : Rooms) : Rooms :=
  match rs with
  | [] => []
  | (k', r') :: rs' =>
      if decide (k = k') then (k, r) :: rs' else (k', r') :: rooms_replace k r rs'
  end.

(** [rooms[k] = r] *)
Definition rooms_set (k : string) (r : Room) (rs : Rooms) : Rooms :=
  match rooms_get k rs with
  | Some _ => rooms_replace k r rs
  | None => add_property k r rs
  end.

(** [delete rooms[k]] *)
Fixpoint rooms_delete (k : string) (rs : Rooms) : Rooms :=
  match rs with
  | [] => []
  | (k', r) :: rs' =>
      if decide (k = k') then rooms_delete k rs' else (k', r) :: rooms_delete k rs'
  end.

(** [Object.keys(rooms)] *)
Definition keys (rs : Rooms) : list string := rs.*1.

(** [arr.includes(x)] *)
Definition includes (x : string) (l : list string) : bool := bool_decide (x ∈ l).

(** [function getRoomOfSocket(socketId)] *)
Definition getRoomOfSocket (socketId : SocketId) (rs : Rooms) : option string :=
  List.find
    (fun code => match rooms_get code rs with
                 | Some room => includes socketId (players room)
                 | None => false
                 end)
    (keys rs).

(** [roles[x] === "white" ? "black" : "white"] *)
Definition swapped (r : option Role) : Role :=
  match r with
  | Some white => black
  | _ => white
  end.

(** [function swapRoomRoles(code)]: the registry after the call and the
    value returned, [None] for [null]. *)
Definition swapRoomRoles (code : string) (rs : Rooms)
    : Rooms * option (gmap string Role) :=
  match rooms_get code rs with
  | None => (rs, None)
  | Some room =>
      match players room with
      | [a; b] =>
          let roles1 := <[a := swapped (roles room !! a)]> (roles room) in
          let roles2 := <[b := swapped (roles1 !! b)]> roles1 in
          (rooms_replace code (mkRoom (hostId room) (players room) roles2) rs,
           Some roles2)
      | _ => (rs, None)
      end
  end.

(** *** The transport

    Socket.IO keeps, for every room name, the sockets that joined it and are
    still connected; every socket is alone in the room named by its own id.
    Socket ids are 20 characters long and a room code has at most 4, so the
    two kinds of names are kept apart. *)
Inductive RoomName :=
| OwnRoom (id : SocketId)
| CodeRoom (code : string).

Inductive Target :=
| ToSocket (id : SocketId)                     (* socket.emit *)
| ToRoom (room : RoomName)                     (* io.to(room).emit *)
| ToRoomExcept (id : SocketId) (room : RoomName). (* socket.to(room).emit *)

(** The payloads the server sends. *)
Inductive Data :=
| DCodeRole (roomCode : string) (role : Role)     (* { roomCode, role } *)
| DText (message : string)
| DCode (roomCode : string)                       (* { roomCode } *)
| DCodeRoles (roomCode : string) (roles : gmap string Role) (* { roomCode, roles } *)
| DValue (v : JsVal).

Record Emission := mkEmission {
  target : Target;
  event : string;
  data : Data
}.

Record State := mkState {
  rooms : Rooms;
  sockets : list SocketId;           (* the open connections *)
  joined : list (SocketId * string)  (* socket.join(code) *)
}.

Definition init : State := mkState [] [] [].

Definition in_room (st : State) (id : SocketId) (room : RoomName) : bool :=
  match room with
  | OwnRoom id' => bool_decide (id = id')
  | CodeRoom code => bool_decide ((id, code) ∈ joined st)
  end.

(** Whether the open connection [id] is sent a message addressed to [t]. *)
Definition reaches (st : State) (id : SocketId) (t : Target) : bool :=
  bool_decide (id ∈ sockets st) &&
  match t with
  | ToSocket id' => bool_decide (id = id')
  | ToRoom room => in_room st id room
  | ToRoomExcept id' room => negb (bool_decide (id = id')) && in_room st id room
  end.

(** What [id] receives of the messages [out], in order. *)
Definition inbox (st : State) (id : SocketId) (out : list Emission)
    : list (string * Data) :=
  (fun e => (event e, data e)) <$> List.filter (fun e => reaches st id (target e)) out.

Definition with_rooms (st : State) (rs : Rooms) : State :=
  mkState rs (sockets st) (joined st).

(** [socket.join(code)] *)
Definition socket_join (st : State) (id : SocketId) (code : string) : State :=
  mkState (rooms st) (sockets st) ((id, code) :: joined st).

(** *** [socket.on("create-room", ...)] *)

(** [let code = makeCode(4); while (rooms[code]) code = makeCode(4);]
    The loop draws until a code is free; [retries] holds the draws after the
    first, and [None] says that they were all taken. *)
Fixpoint freshCode (rs : Rooms) (code : string) (retries : list Random)
    : option string :=
  match rooms_get code rs with
  | None => Some code
  | Some _ =>
      match retries with
      | [] => None
      | r :: retries' => freshCode rs (makeCode 4 r) retries'
      end
  end.

Definition create_room (st : State) (id : SocketId) (r : Random)
    (retries : list Random) : option (State * list Emission) :=
  code ← freshCode (rooms st) (makeCode 4 r) retries;
  let room := mkRoom id [id] {[ id := white ]} in
  let st1 := with_rooms st (rooms_set code room (rooms st)) in
  let st2 := socket_join st1 id code in
  Some (st2, [mkEmission (ToSocket id) "room-created" (DCodeRole code white)]).

(** *** [socket.on("join-room", ...)] *)
Definition join_room (st : State) (id : SocketId) (code : JsVal)
    : Result (State * list Emission) :=
  code ← normalize code;
  match rooms_get code (rooms st) with
  | None => mret (st, [mkEmission (ToSocket id) "room-error" (DText "Room unavailable")])
  | Some room =>
      if (2 <=? length (players room))%nat
      then mret (st, [mkEmission (ToSocket id) "room-error" (DText "Room unavailable")])
      else
        let room' := mkRoom (hostId room) (players room ++ [id])
                       (<[id := black]> (roles room)) in
        let st1 := with_rooms st (rooms_replace code room' (rooms st)) in
        let st2 := socket_join st1 id code in
        mret (st2,
              [mkEmission (ToSocket id) "room-joined" (DCodeRole code black);
               mkEmission (ToRoom (OwnRoom (hostId room'))) "opponent-joined" (DCode code);
               mkEmission (ToRoom (CodeRoom code)) "room-ready"
                 (DCodeRoles code (roles room'))])
  end.

(** *** [socket.on("action", ...)] *)

(** [{ type: "restart" }] *)
Definition restart : JsVal := JObj [("type", JStr "restart")].

(** [({ roomCode, action })] and
    [roomCode = String(roomCode || "").trim().toUpperCase()]: the room the
    event names and the action it carries. *)
Definition request (payload : JsVal) : Result (string * JsVal) :=
  roomCode ← get payload "roomCode";
  action ← get payload "action";
  roomCode ← normalize roomCode;
  mret (roomCode, action).

Definition action_handler (st : State) (id : SocketId) (payload : JsVal)
    : Result (State * list Emission) :=
  '(roomCode, action) ← request payload;
  match rooms_get roomCode (rooms st) with
  | None => mret (st, [])
  | Some room =>
      if negb (includes id (players room)) then mret (st, [])
      else if is_swap_sides action then
        match swapRoomRoles roomCode (rooms st) with
        | (_, None) =>
            mret (st, [mkEmission (ToRoom (OwnRoom id)) "room-error"
                         (DText "Need 2 players to swap sides")])
        | (rs, Some roles) =>
            mret (with_rooms st rs,
                  [mkEmission (ToRoom (CodeRoom roomCode)) "roles-updated"
                     (DCodeRoles roomCode roles);
                   mkEmission (ToRoom (CodeRoom roomCode)) "action" (DValue restart)])
        end
      else mret (st, [mkEmission (ToRoom (CodeRoom roomCode)) "action" (DValue action)])
  end.

(** *** [socket.on("disconnect", ...)] *)

(** Before the handler runs the transport has closed the socket and taken it
    out of every room it had joined. *)
Definition close_socket (st : State) (id : SocketId) : State :=
  mkState (rooms st)
    (filter (fun x => x ≠ id) (sockets st))
    (filter (fun p => p.1 ≠ id) (joined st)).

(** [if (!code) return;] treats the empty string like [null]. *)
Definition disconnect_handler (st : State) (id : SocketId)
    : State * list Emission :=
  match getRoomOfSocket id (rooms st) with
  | None => (st, [])
  | Some code =>
      if bool_decide (code = "") then (st, [])
      else
        match rooms_get code (rooms st) with
        | None => (st, [])
        | Some room =>
            let players' := filter (fun p => p ≠ id) (players room) in
            let roles' := delete id (roles room) in
            let out := [mkEmission (ToRoomExcept id (CodeRoom code))
                          "opponent-left" (DCode code)] in
            match players' with
            | [] => (with_rooms st (rooms_delete code (rooms st)), out)
            | p0 :: _ =>
                let host := if decide (hostId room = id) then p0 else hostId room in
                (with_rooms st
                   (rooms_replace code (mkRoom host players' roles') (rooms st)),
                 out)
            end
        end
  end.

Definition disconnect (st : State) (id : SocketId) : State * list Emission :=
  disconnect_handler (close_socket st id) id.

(** *** Runs of the server *)
Inductive Event :=
| Connect (id : SocketId)
| CreateRoom (id : SocketId) (r : Random) (retries : list Random)
| JoinRoom (id : SocketId) (code : JsVal)
| Action (id : SocketId) (payload : JsVal)
| Disconnect (id : SocketId).

Definition of_result {A} (r : Result A) : option A :=
  match r with
  | Return a => Some a
  | TypeError => None
  end.

Definition is_player (id : SocketId) (rs : Rooms) : bool :=
  existsb (fun kr => includes id (players kr.2)) rs.

(** A new connection gets an id that is not in use and that the registry
    does not hold; the other events come from open connections.  A handler
    that throws or does not return ends the run. *)
Definition handle (st : State) (ev : Event) : option (State * list Emission) :=
  match ev with
  | Connect id =>
      if bool_decide (id ∈ sockets st) || is_player id (rooms st) then None
      else Some (mkState (rooms st) (id :: sockets st) (joined st), [])
  | CreateRoom id r retries =>
      if bool_decide (id ∈ sockets st) then create_room st id r retries else None
  | JoinRoom id code =>
      if bool_decide (id ∈ sockets st) then of_result (join_room st id code) else None
  | Action id payload =>
      if bool_decide (id ∈ sockets st) then of_result (action_handler st id payload)
      else None
  | Disconnect id =>
      if bool_decide (id ∈ sockets st) then Some (disconnect st id) else None
  end.

Fixpoint run (st : State) (evs : list Event) : option State :=
  match evs with
  | [] => Some st
  | ev :: evs' =>
      match handle st ev with
      | Some (st', _) => run st' evs'
      | None => None
      end
  end.

Inductive reachable : State -> Prop :=
| reachable_init : reachable init
| reachable_step st ev st' out :
    reachable st -> handle st ev = Some (st', out) -> reachable st'.

(** The invariant of the registry spec.md states: the keys of [roles] are
    the entries of [players], and with two players each of the two roles is
    held by exactly one of them. *)
Definition one_of_each (room : Room) : Prop :=
  forall role : Role,
    exists p, p ∈ players room /\ roles room !! p = Some role /\
      forall q, q ∈ players room -> roles room !! q = Some role -> q = p.

Definition room_ok (room : Room) : Prop :=
  (forall p, p ∈ players room <-> is_Some (roles room !! p)) /\
  (length (players room) = 2 -> one_of_each room).

(** What does hold of every room along a run. *)
Definition room_wf (room : Room) : Prop :=
  (length (players room) = 1 \/ length (players room) = 2) /\
  (forall p, p ∈ players room <-> is_Some (roles room !! p)).

Definition subscribed (st : State) : Prop :=
  (forall code room p,
      rooms_get code (rooms st) = Some room -> p ∈ players room ->
      p ∈ sockets st -> (p, code) ∈ joined st) /\
  (forall p code,
      (p, code) ∈ joined st ->
      p ∈ sockets st /\
      exists room, rooms_get code (rooms st) = Some room /\ p ∈ players room).

Definition invariant (st : State) : Prop :=
  (forall code room, rooms_get code (rooms st) = Some room -> room_wf room) /\
  subscribed st.

(** *** The properties spec.md states of the handlers *)

Definition opposite (r : Role) : Role :=
  match r with
  | white => black
  | black => white
  end.

(** Swap-sides from [id] on the room [room] held at [code]: every role value
    is replaced by the other one, so that two players who held different
    roles have exchanged them; the room hears of the new roles and then of
    the restart; a second swap-sides brings the first roles back; and the two
    messages reach every player whose connection is open. *)
Definition swap_exchanges (st : State) (id : SocketId) (payload : JsVal)
    (code : string) (room : Room) : Prop :=
  exists st1 roles1,
    let out1 := [mkEmission (ToRoom (CodeRoom code)) "roles-updated"
                   (DCodeRoles code roles1);
                 mkEmission (ToRoom (CodeRoom code)) "action" (DValue restart)] in
    action_handler st id payload = Return (st1, out1) /\
    rooms_get code (rooms st1) = Some (mkRoom (hostId room) (players room) roles1) /\
    roles1 = opposite <$> roles room /\
    (forall a b, players room = [a; b] -> roles room !! a ≠ roles room !! b ->
       roles1 !! a = roles room !! b /\ roles1 !! b = roles room !! a) /\
    (forall p, p ∈ players room -> p ∈ sockets st ->
       inbox st1 p out1 =
       [("roles-updated", DCodeRoles code roles1); ("action", DValue restart)]) /\
    exists st2,
      action_handler st1 id payload =
      Return (st2, [mkEmission (ToRoom (CodeRoom code)) "roles-updated"
                      (DCodeRoles code (roles room));
                    mkEmission (ToRoom (CodeRoom code)) "action" (DValue restart)]) /\
      rooms_get code (rooms st2) = Some room.

(** *** Example runs *)

(** Two draws of [Math.random()], printed as 0.ab3k7l2m9qd and 0.cd12x04hf8s,
    the draw 0.5 and the draw 0. *)
Definition draw_AB3K : Random := [10; 11; 3; 20; 7; 21; 2; 22; 9; 26; 13].
Definition draw_CD12 : Random := [12; 13; 1; 2; 33; 0; 4; 17; 15; 8; 28].
Definition draw_half : Random := fraction36 53 1 2.
Definition draw_zero : Random := fraction36 53 0 1.

Definition state_after (evs : list Event) : State := default init (run init evs).

Definition swap_sides_in (roomCode : string) : JsVal :=
  JObj [("roomCode", JStr roomCode); ("action", JObj [("type", JStr "swap-sides")])].

Definition move_in (roomCode : string) : JsVal :=
  JObj [("roomCode", JStr roomCode);
        ("action", JObj [("type", JStr "move"); ("cell", JStr "b2")])].

(** One connection creates a room. *)
Definition run_created : list Event :=
  [Connect "s1"; CreateRoom "s1" draw_AB3K []].

(** A second connection joins it. *)
Definition run_paired : list Event :=
  run_created ++ [Connect "s2"; JoinRoom "s2" (JStr " ab3k ")].

(** The creator leaves and a third connection arrives. *)
Definition run_host_left : list Event :=
  run_paired ++ [Disconnect "s1"; Connect "s3"].

(** The third connection joins the room the creator left. *)
Definition run_rejoined : list Event :=
  run_host_left ++ [JoinRoom "s3" (JStr "ab3k")].

(** The creator joins its own room. *)
Definition run_self_joined : list Event :=
  run_created ++ [JoinRoom "s1" (JStr "AB3K")].

(** [Math.random()] returns 0 when the room is created. *)
Definition run_empty_code : list Event :=
  [Connect "s1"; CreateRoom "s1" draw_zero []].

(** One connection creates two rooms. *)
Definition run_two_rooms : list Event :=
  run_created ++ [CreateRoom "s1" draw_CD12 []].

End Server.

Import JsString Code JsValue Server.

(** ** Lemmas on the registry *)
Section registry.
Implicit Types (k code : string) (r room : Room) (rs : Rooms).

Lemma rooms_get_replace k k' r rs :
  rooms_get k' (rooms_replace k r rs) =
  if decide (k' = k) then (fun _ => r) <$> rooms_get k rs else rooms_get k' rs.
Proof.
  induction rs as [|[k0 r0] rs IH]; cbn [rooms_get rooms_replace].
  - by case_decide.
  - repeat (case_decide; cbn [rooms_get rooms_replace fmap option_fmap option_map];
            simplify_eq; try done).
Qed.

Lemma rooms_get_replace_eq k r r0 rs :
  rooms_get k rs = Some r0 -> rooms_get k (rooms_replace k r rs) = Some r.
Proof. intros H. by rewrite rooms_get_replace, decide_True, H. Qed.

Lemma rooms_get_replace_ne k k' r rs :
  k' ≠ k -> rooms_get k' (rooms_replace k r rs) = rooms_get k' rs.
Proof. intros H. by rewrite rooms_get_replace, decide_False. Qed.

Lemma rooms_get_delete k k' rs :
  rooms_get k' (rooms_delete k rs) =
  if decide (k' = k) then None else rooms_get k' rs.
Proof.
  induction rs as [|[k0 r0] rs IH]; cbn [rooms_get rooms_delete].
  - by case_decide.
  - repeat (case_decide; cbn [rooms_get rooms_delete]; simplify_eq; try done).
Qed.

Lemma rooms_get_insert_before p k k' r rs :
  rooms_get k rs = None ->
  rooms_get k' (insert_before p k r rs) =
  if decide (k' = k) then Some r else rooms_get k' rs.
Proof.
  induction rs as [|[k0 r0] rs IH]; cbn [rooms_get insert_before]; intros Hk.
  - done.
  - destruct (decide (k = k0)) as [->|Hne]; [done|].
    destruct (p k0); cbn [rooms_get].
    + done.
    + rewrite (IH Hk). repeat (case_decide; simplify_eq; try done).
Qed.

Lemma rooms_get_set k k' r rs :
  rooms_get k' (rooms_set k r rs) =
  if decide (k' = k) then Some r else rooms_get k' rs.
Proof.
  unfold rooms_set. destruct (rooms_get k rs) as [r0|] eqn:Hk.
  - rewrite rooms_get_replace. case_decide; [by rewrite Hk|done].
  - unfold add_property. destruct (array_index k);
      by apply rooms_get_insert_before.
Qed.

Lemma rooms_get_keys k rs : is_Some (rooms_get k rs) <-> k ∈ keys rs.
Proof.
  unfold keys. induction rs as [|[k0 r0] rs IH]; cbn [rooms_get fmap list_fmap fst].
  - split; [by intros [? ?] | by intros ?%elem_of_nil].
  - rewrite elem_of_cons. destruct (decide (k = k0)) as [->|].
    + split; [by left | by eauto].
    + rewrite IH. split; [by right | by intros [?|?]].
Qed.

Lemma includes_true x (l : list string) : includes x l = true <-> x ∈ l.
Proof. unfold includes. apply bool_decide_eq_true. Qed.

Lemma includes_false x (l : list string) : includes x l = false <-> x ∉ l.
Proof. unfold includes. apply bool_decide_eq_false. Qed.

Lemma getRoomOfSocket_Some id rs code :
  getRoomOfSocket id rs = Some code ->
  exists room, rooms_get code rs = Some room /\ id ∈ players room.
Proof.
  unfold getRoomOfSocket. intros [_ H]%find_some.
  destruct (rooms_get code rs) as [room|]; [|done].
  exists room. split; [done|]. by apply includes_true.
Qed.

Lemma getRoomOfSocket_None id rs code room :
  getRoomOfSocket id rs = None ->
  rooms_get code rs = Some room -> id ∉ players room.
Proof.
  unfold getRoomOfSocket. intros H Hget.
  assert (Hin : In code (keys rs)).
  { apply list_elem_of_In, rooms_get_keys. eauto. }
  pose proof (find_none _ _ H _ Hin) as Hf. simpl in Hf.
  rewrite Hget in Hf. by apply includes_false.
Qed.

(** A connection is found by [getRoomOfSocket] exactly when some room has
    it among its players. *)
Lemma getRoomOfSocket_is_Some id rs :
  is_Some (getRoomOfSocket id rs) <->
  exists code room, rooms_get code rs = Some room /\ id ∈ players room.
Proof.
  split.
  - intros [code H]. exists code. by apply getRoomOfSocket_Some.
  - intros (code & room & Hget & Hin).
    destruct (getRoomOfSocket id rs) eqn:E; [by eauto|].
    by destruct (getRoomOfSocket_None _ _ _ _ E Hget).
Qed.

Lemma is_player_false id rs code room :
  is_player id rs = false -> rooms_get code rs = Some room -> id ∉ players room.
Proof.
  unfold is_player. induction rs as [|[k0 r0] rs IH]; simpl; [done|].
  intros [H1 H2]%orb_false_iff. destruct (decide (code = k0)) as [->|].
  - intros [= <-]. by apply includes_false.
  - by apply IH.
Qed.

Lemma freshCode_free rs code retries code' :
  freshCode rs code retries = Some code' -> rooms_get code' rs = None.
Proof.
  revert code. induction retries as [|r retries IH]; simpl; intros code.
  - destruct (rooms_get code rs) eqn:E; [done|]. by intros [= <-].
  - destruct (rooms_get code rs) eqn:E; [by apply IH|]. by intros [= <-].
Qed.

Lemma freshCode_drawn rs (d : Random) retries code' :
  freshCode rs (makeCode 4 d) retries = Some code' ->
  code' ∈ makeCode 4 <$> d :: retries.
Proof.
  revert d. induction retries as [|d' retries IH]; intros d;
    cbn [freshCode]; rewrite fmap_cons.
  - destruct (rooms_get _ rs); [done|]. intros [= <-]. by left.
  - destruct (rooms_get (makeCode 4 d) rs); [|intros [= <-]; by left].
    intros H. right. by apply (IH d').
Qed.

(** The loop ends as soon as a draw is free. *)
Lemma freshCode_terminates rs (d : Random) retries :
  Exists (fun d => rooms_get (makeCode 4 d) rs = None) (d :: retries) ->
  is_Some (freshCode rs (makeCode 4 d) retries).
Proof.
  revert d. induction retries as [|d' retries IH]; intros d H; cbn [freshCode].
  - apply Exists_cons in H as [H|H]; [by rewrite H|by apply Exists_nil in H].
  - destruct (rooms_get (makeCode 4 d) rs) eqn:E; [|by eauto].
    apply IH. apply Exists_cons in H as [H|H]; [congruence|done].
Qed.

End registry.

(** ** What every run preserves *)
Section invariants.
Implicit Types (st : State) (id p code : string) (room : Room).

Lemma room_wf_new id : room_wf (mkRoom id [id] {[ id := white ]}).
Proof.
  split; [by left|]. intros p. cbn [players roles].
  rewrite list_elem_of_singleton, lookup_singleton_is_Some.
  split; by intros ->.
Qed.

Lemma room_wf_join room id :
  room_wf room -> length (players room) < 2 ->
  room_wf (mkRoom (hostId room) (players room ++ [id]) (<[id := black]> (roles room))).
Proof.
  intros [Hlen Hkeys] Hlt. split; cbn [players roles].
  - right. rewrite length_app. simpl. lia.
  - intros p. rewrite elem_of_app, list_elem_of_singleton, lookup_insert_is_Some'.
    rewrite Hkeys. split; intros [?|?]; auto.
Qed.

Lemma room_wf_swap room a b :
  room_wf room -> players room = [a; b] ->
  room_wf (mkRoom (hostId room) (players room)
             (<[b := swapped (<[a := swapped (roles room !! a)]> (roles room) !! b)]>
                (<[a := swapped (roles room !! a)]> (roles room)))).
Proof.
  intros [Hlen Hkeys] Hp. split; cbn [players roles]; [done|].
  intros p. rewrite !lookup_insert_is_Some', <- Hkeys, Hp.
  rewrite !elem_of_cons. split; [by auto|].
  intros [->|[->|?]]; auto.
Qed.

Lemma room_wf_leave room id p0 ps :
  room_wf room -> id ∈ players room ->
  filter (fun p => p ≠ id) (players room) = p0 :: ps ->
  ps = [] /\
  forall host, room_wf (mkRoom host [p0] (delete id (roles room))).
Proof.
  intros [Hlen Hkeys] Hin Hf.
  assert (Hlt : length (filter (fun p => p ≠ id) (players room)) < length (players room)).
  { apply (length_filter_lt _ _ id); [done|]. by intros H. }
  rewrite Hf in Hlt. simpl in Hlt.
  assert (ps = []) as -> by (destruct ps; [done|simpl in Hlt; lia]).
  split; [done|]. intros host. split; cbn [players roles]; [by left|].
  intros p. rewrite lookup_delete_is_Some, <- Hkeys.
  rewrite <- Hf, list_elem_of_filter. split; intros [? ?]; split; auto.
Qed.

Lemma invariant_init : invariant init.
Proof.
  split; [|split]; simpl.
  - intros ? ? [=].
  - intros ? ? ? [=].
  - intros ? ? ?%elem_of_nil. done.
Qed.

Lemma invariant_connect st id :
  invariant st -> id ∉ sockets st -> is_player id (rooms st) = false ->
  invariant (mkState (rooms st) (id :: sockets st) (joined st)).
Proof.
  intros (Hwf & Hs1 & Hs2) Hid Hpl. split; [|split]; cbn [rooms sockets joined].
  - done.
  - intros code room p Hget Hp [->|Hin]%elem_of_cons.
    + by destruct (is_player_false _ _ _ _ Hpl Hget).
    + by eapply Hs1.
  - intros p code Hj. destruct (Hs2 _ _ Hj) as [? ?]. split; [by right|done].
Qed.

Lemma invariant_create st id (d : Random) retries st' out :
  invariant st -> id ∈ sockets st ->
  create_room st id d retries = Some (st', out) -> invariant st'.
Proof.
  intros (Hwf & Hs1 & Hs2) Hid. unfold create_room.
  destruct (freshCode _ _ _) as [code|] eqn:Hcode; [|done].
  apply freshCode_free in Hcode. cbn [mbind option_bind]. intros [= <- <-].
  split; [|split]; cbn [rooms sockets joined socket_join with_rooms].
  - intros code' room. rewrite rooms_get_set. case_decide.
    + intros [= <-]. apply room_wf_new.
    + apply Hwf.
  - intros code' room p. rewrite rooms_get_set. case_decide as Hc.
    + intros [= <-] ->%list_elem_of_singleton _. subst. by left.
    + intros. right. by eapply Hs1.
  - intros p code' [[= -> ->]|Hj]%elem_of_cons.
    + split; [done|]. eexists. rewrite rooms_get_set, decide_True by done.
      split; [done|]. by left.
    + destruct (Hs2 _ _ Hj) as (? & room & Hget & ?). split; [done|].
      exists room. rewrite rooms_get_set, decide_False; [done|].
      intros ->. congruence.
Qed.

Lemma join_room_refused st id v code :
  normalize v = Return code ->
  (rooms_get code (rooms st) = None \/
   exists room, rooms_get code (rooms st) = Some room /\ 2 <= length (players room)) ->
  join_room st id v =
  Return (st, [mkEmission (ToSocket id) "room-error" (DText "Room unavailable")]).
Proof.
  intros Hn H. unfold join_room. rewrite Hn. cbn [mbind Result_bind].
  destruct H as [->|(room & -> & Hlen)]; [done|].
  by apply Nat.leb_le in Hlen as ->.
Qed.

Lemma join_room_accepted st id v code room :
  normalize v = Return code ->
  rooms_get code (rooms st) = Some room -> length (players room) < 2 ->
  let room' := mkRoom (hostId room) (players room ++ [id])
                 (<[id := black]> (roles room)) in
  join_room st id v =
  Return (socket_join (with_rooms st (rooms_replace code room' (rooms st))) id code,
          [mkEmission (ToSocket id) "room-joined" (DCodeRole code black);
           mkEmission (ToRoom (OwnRoom (hostId room))) "opponent-joined" (DCode code);
           mkEmission (ToRoom (CodeRoom code)) "room-ready"
             (DCodeRoles code (roles room'))]).
Proof.
  intros Hn Hget Hlen. unfold join_room. rewrite Hn. cbn [mbind Result_bind].
  rewrite Hget. by apply Nat.leb_gt in Hlen as ->.
Qed.

Lemma invariant_join st id v st' out :
  invariant st -> id ∈ sockets st ->
  join_room st id v = Return (st', out) -> invariant st'.
Proof.
  intros Hinv Hid. destruct (normalize v) as [code|] eqn:Hn;
    [|by unfold join_room; rewrite Hn].
  destruct (rooms_get code (rooms st)) as [room|] eqn:Hget.
  2:{ rewrite (join_room_refused _ _ _ code) by auto. by intros [= <- <-]. }
  destruct (decide (2 <= length (players room))) as [Hlen|Hlen].
  { rewrite (join_room_refused _ _ _ code) by eauto. by intros [= <- <-]. }
  rewrite (join_room_accepted _ _ _ code room) by (auto; lia).
  intros [= <- <-]. destruct Hinv as (Hwf & Hs1 & Hs2).
  split; [|split]; cbn [rooms sockets joined socket_join with_rooms].
  - intros code' room'. rewrite rooms_get_replace. case_decide.
    + rewrite Hget. intros [= <-]. apply room_wf_join; [by eapply Hwf|lia].
    + apply Hwf.
  - intros code' room' p. rewrite rooms_get_replace. case_decide as Hc.
    + rewrite Hget. intros [= <-]. cbn [players]. subst code'.
      intros [Hp| ->%list_elem_of_singleton]%elem_of_app Hin; [|by left].
      right. by eapply Hs1.
    + intros. right. by eapply Hs1.
  - intros p code' [[= -> ->]|Hj]%elem_of_cons.
    + split; [done|]. eexists. rewrite rooms_get_replace, decide_True, Hget by done.
      split; [done|]. cbn [players]. apply elem_of_app. right. by left.
    + destruct (Hs2 _ _ Hj) as (? & room' & Hget' & ?). split; [done|].
      rewrite rooms_get_replace. case_decide as Hc.
      * subst code'. rewrite Hget in *. simplify_eq. eexists. split; [done|].
        cbn [players]. apply elem_of_app. by left.
      * by exists room'.
Qed.


Lemma swapRoomRoles_two code rs room a b :
  rooms_get code rs = Some room -> players room = [a; b] ->
  let roles1 := <[a := swapped (roles room !! a)]> (roles room) in
  let roles2 := <[b := swapped (roles1 !! b)]> roles1 in
  swapRoomRoles code rs =
  (rooms_replace code (mkRoom (hostId room) (players room) roles2) rs, Some roles2).
Proof. intros Hget Hp. unfold swapRoomRoles. by rewrite Hget, Hp. Qed.

Lemma swapRoomRoles_not_two code rs room :
  rooms_get code rs = Some room -> length (players room) ≠ 2 ->
  swapRoomRoles code rs = (rs, None).
Proof.
  intros Hget Hp. unfold swapRoomRoles. rewrite Hget.
  by destruct (players room) as [|a [|b [|c l]]].
Qed.

Lemma invariant_action st id payload st' out :
  invariant st -> action_handler st id payload = Return (st', out) -> invariant st'.
Proof.
  intros Hinv. unfold action_handler.
  destruct (request payload) as [[code action]|]; [|done].
  cbn [mbind Result_bind].
  destruct (rooms_get code (rooms st)) as [room|] eqn:Hget; [|by intros [= <- <-]].
  destruct (negb _); [by intros [= <- <-]|].
  destruct (is_swap_sides action); [|by intros [= <- <-]].
  destruct (decide (length (players room) = 2)) as [Hlen|Hlen].
  2:{ rewrite (swapRoomRoles_not_two _ _ room) by done. by intros [= <- <-]. }
  destruct (players room) as [|a [|b [|c l]]] eqn:Hp; try done.
  rewrite (swapRoomRoles_two _ _ room a b) by done. intros [= <- <-].
  destruct Hinv as (Hwf & Hs1 & Hs2).
  split; [|split]; cbn [rooms sockets joined with_rooms].
  - intros code' room'. rewrite rooms_get_replace. case_decide.
    + rewrite Hget. intros [= <-]. apply room_wf_swap; [by eapply Hwf|done].
    + apply Hwf.
  - intros code' room' p. rewrite rooms_get_replace. case_decide as Hc.
    + rewrite Hget. intros [= <-]. cbn [players]. subst code'. by eapply Hs1.
    + by eapply Hs1.
  - intros p code' Hj. destruct (Hs2 _ _ Hj) as (? & room' & Hget' & ?).
    split; [done|]. rewrite rooms_get_replace. case_decide as Hc.
    + subst code'. rewrite Hget in *. simplify_eq. by eexists.
    + by exists room'.
Qed.

Lemma invariant_close st id :
  invariant st ->
  invariant (close_socket st id) /\
  (id ∉ sockets (close_socket st id)) /\
  (forall code, (id, code) ∉ joined (close_socket st id)).
Proof.
  intros (Hwf & Hs1 & Hs2). unfold close_socket. cbn [rooms sockets joined].
  split; [split; [|split]|split]; cbn [rooms sockets joined].
  - done.
  - intros code room p Hget Hp [Hne Hin]%list_elem_of_filter.
    apply list_elem_of_filter. split; [done|]. by eapply Hs1.
  - intros p code [Hne Hj]%list_elem_of_filter. cbn [fst] in Hne.
    destruct (Hs2 _ _ Hj) as [? ?]. split; [|done].
    by apply list_elem_of_filter.
  - by intros [? ?]%list_elem_of_filter.
  - by intros code [? ?]%list_elem_of_filter.
Qed.

Lemma invariant_disconnect_handler st id :
  invariant st -> (forall code, (id, code) ∉ joined st) ->
  invariant (disconnect_handler st id).1.
Proof.
  intros Hinv Hnj. unfold disconnect_handler.
  destruct (getRoomOfSocket id (rooms st)) as [code|] eqn:Hfind; [|done].
  case_bool_decide; [done|].
  destruct (getRoomOfSocket_Some _ _ _ Hfind) as (room & Hget & Hin).
  rewrite Hget. destruct Hinv as (Hwf & Hs1 & Hs2).
  destruct (filter _ (players room)) as [|p0 ps] eqn:Hf; cbn [fst].
  - split; [|split]; cbn [rooms sockets joined with_rooms].
    + intros code' room'. rewrite rooms_get_delete. case_decide; [done|]. apply Hwf.
    + intros code' room' p. rewrite rooms_get_delete. case_decide; [done|].
      by eapply Hs1.
    + intros p code' Hj. destruct (Hs2 _ _ Hj) as (? & room' & Hget' & Hp).
      split; [done|]. rewrite rooms_get_delete. case_decide as Hc; [|by eauto].
      subst code'. rewrite Hget in Hget'. simplify_eq.
      assert (p ∈ filter (fun q => q ≠ id) (players room')) as Hp'.
      { apply list_elem_of_filter. split; [|done]. intros ->. by eapply Hnj. }
      rewrite Hf in Hp'. by apply elem_of_nil in Hp'.
  - destruct (room_wf_leave room id p0 ps) as [-> Hwf']; [by eapply Hwf|done..|].
    split; [|split]; cbn [rooms sockets joined with_rooms].
    + intros code' room'. rewrite rooms_get_replace. case_decide.
      * rewrite Hget. intros [= <-]. apply Hwf'.
      * apply Hwf.
    + intros code' room' p. rewrite rooms_get_replace. case_decide as Hc.
      * rewrite Hget. intros [= <-]. cbn [players]. subst code'.
        rewrite <- Hf. intros [_ Hp]%list_elem_of_filter. by eapply Hs1.
      * by eapply Hs1.
    + intros p code' Hj. destruct (Hs2 _ _ Hj) as (? & room' & Hget' & Hp).
      split; [done|]. rewrite rooms_get_replace. case_decide as Hc; [|by eauto].
      subst code'. rewrite Hget in *. simplify_eq. eexists. split; [done|].
      cbn [players]. rewrite <- Hf. apply list_elem_of_filter. split; [|done].
      intros ->. by eapply Hnj.
Qed.

Lemma invariant_handle st ev st' out :
  invariant st -> handle st ev = Some (st', out) -> invariant st'.
Proof.
  intros Hinv. destruct ev as [id|id d retries|id v|id payload|id]; cbn [handle].
  - destruct (bool_decide (id ∈ sockets st)) eqn:Hid; [done|].
    destruct (is_player id (rooms st)) eqn:Hpl; [done|]. cbn [orb].
    intros [= <- <-]. apply invariant_connect; [done| |done].
    by apply bool_decide_eq_false in Hid.
  - case_bool_decide; [|done]. by apply invariant_create.
  - case_bool_decide; [|done].
    destruct (join_room st id v) as [[st1 out1]|] eqn:E; [|done].
    intros [= <- <-]. by eapply invariant_join.
  - case_bool_decide; [|done].
    destruct (action_handler st id payload) as [[st1 out1]|] eqn:E; [|done].
    intros [= <- <-]. by eapply invariant_action.
  - case_bool_decide; [|done]. unfold disconnect.
    destruct (invariant_close st id Hinv) as (Hinv' & _ & Hnj).
    pose proof (invariant_disconnect_handler _ id Hinv' Hnj) as H'.
    destruct (disconnect_handler _ _) as [st1 out1]. by intros [= <- <-].
Qed.

Lemma reachable_invariant st : reachable st -> invariant st.
Proof.
  induction 1 as [|st ev st' out _ IH Hstep].
  - apply invariant_init.
  - by eapply invariant_handle.
Qed.

Lemma run_reachable st evs st' :
  reachable st -> run st evs = Some st' -> reachable st'.
Proof.
  revert st. induction evs as [|ev evs IH]; intros st Hr; cbn [run].
  - by intros [= <-].
  - destruct (handle st ev) as [[st1 out]|] eqn:E; [|done].
    apply IH. by eapply reachable_step.
Qed.

End invariants.

(** ** Strings and room codes *)
Section strings.
Implicit Types (c : ascii) (s w : string).

Local Ltac by_cases_on c :=
  destruct c as [[] [] [] [] [] [] [] []]; vm_compute; (done || intros; done).

Local Abbreviation plain := is_plain.

Lemma upper_ascii_code c : is_code_char c = true -> upper_ascii c = c.
Proof. by_cases_on c. Qed.

Lemma upper_lower_char c : is_code_char c = true -> upper_ascii (lower_char c) = c.
Proof. by_cases_on c. Qed.

Lemma lower_char_plain c : is_code_char c = true -> plain (lower_char c) = true.
Proof. by_cases_on c. Qed.

Lemma code_char_plain c : is_code_char c = true -> plain c = true.
Proof. by_cases_on c. Qed.

Lemma upper_ascii_not_lower c : is_lower (upper_ascii c) = false.
Proof. by_cases_on c. Qed.

Lemma plain_ascii c : plain c = true -> (code_of c <? 128)%nat = true.
Proof. unfold is_plain. by intros [? _]%andb_true_iff. Qed.

Lemma plain_not_white c : plain c = true -> white1 c = false.
Proof. unfold is_plain. by intros [_ ?%negb_true_iff]%andb_true_iff. Qed.

Lemma append_empty s : s ++ "" = s.
Proof.
  induction s as [|c s IH]; [done|].
  change (String c s ++ "") with (String c (s ++ "")). by rewrite IH.
Qed.

(** A byte below 128 starts no character of several bytes. *)
Lemma ascii_two_bytes c c2 : (code_of c <? 128)%nat = true -> two_bytes c c2 = false.
Proof.
  intros H%Nat.ltb_lt. unfold two_bytes.
  destruct (194 <=? code_of c)%nat eqn:E; [|done]. apply Nat.leb_le in E. lia.
Qed.

Lemma ascii_three_bytes c c2 c3 :
  (code_of c <? 128)%nat = true -> three_bytes c c2 c3 = false.
Proof.
  intros H%Nat.ltb_lt. unfold three_bytes.
  destruct (224 <=? code_of c)%nat eqn:E; [|done]. apply Nat.leb_le in E. lia.
Qed.

Lemma ascii_four_bytes c c2 c3 c4 :
  (code_of c <? 128)%nat = true -> four_bytes c c2 c3 c4 = false.
Proof.
  intros H%Nat.ltb_lt. unfold four_bytes.
  destruct (240 <=? code_of c)%nat eqn:E; [|done]. apply Nat.leb_le in E. lia.
Qed.

Lemma toUpperCase_ascii c s :
  (code_of c <? 128)%nat = true ->
  toUpperCase (String c s) = String (upper_ascii c) (toUpperCase s).
Proof.
  intros H. destruct s as [|c2 [|c3 [|c4 s4]]]; cbn [toUpperCase]; cbv zeta;
    rewrite ?(ascii_two_bytes c _ H), ?(ascii_three_bytes c _ _ H),
      ?(ascii_four_bytes c _ _ _ H); done.
Qed.

Lemma toUpperCase_code s : all_chars is_code_char s = true -> toUpperCase s = s.
Proof.
  induction s as [|c s IH]; [done|]. cbn [all_chars].
  intros [Hc Hs]%andb_true_iff.
  rewrite toUpperCase_ascii by (by apply plain_ascii, code_char_plain).
  by rewrite upper_ascii_code, IH.
Qed.

Lemma toUpperCase_toLowerCase s :
  all_chars is_code_char s = true -> toUpperCase (toLowerCase s) = s.
Proof.
  induction s as [|c s IH]; [done|]. cbn [all_chars toLowerCase].
  intros [Hc Hs]%andb_true_iff.
  rewrite toUpperCase_ascii by (by apply plain_ascii, lower_char_plain).
  by rewrite upper_lower_char, IH.
Qed.

Local Abbreviation no_lower := (all_chars (fun c => negb (is_lower c))).

Lemma no_lower_app a b : no_lower a = true -> no_lower b = true -> no_lower (a ++ b) = true.
Proof.
  induction a as [|c a IH]; [done|].
  change (String c a ++ b) with (String c (a ++ b)). cbn [all_chars].
  intros [? ?]%andb_true_iff ?. apply andb_true_iff. auto.
Qed.

Lemma upper_table_no_lower :
  forallb (fun e => no_lower (encode_all (snd e))) upper_table = true.
Proof. vm_compute. reflexivity. Qed.

Lemma upper_of_no_lower cp same : no_lower same = true -> no_lower (upper_of cp same) = true.
Proof.
  intros Hs. unfold upper_of.
  destruct (List.find _ upper_table) as [e|] eqn:Hf; [|done].
  apply find_some in Hf as [Hin _].
  pose proof upper_table_no_lower as Ht. rewrite forallb_forall in Ht. by apply Ht.
Qed.

Lemma cont_not_lower c : is_cont c = true -> is_lower c = false.
Proof. by_cases_on c. Qed.

Lemma lead_not_lower c : (194 <=? code_of c)%nat = true -> is_lower c = false.
Proof. by_cases_on c. Qed.

Lemma toUpperCase_no_lower_bounded n s :
  String.length s <= n -> no_lower (toUpperCase s) = true.
Proof.
  revert s. induction (lt_wf n) as [n _ IH]. intros s Hn.
  destruct s as [|c1 s1]; [done|]. cbn [String.length] in Hn.
  assert (Hone : no_lower (String (upper_ascii c1) (toUpperCase s1)) = true).
  { cbn [all_chars]. rewrite upper_ascii_not_lower. apply (IH (String.length s1)); lia. }
  cbn [toUpperCase]. cbv zeta.
  destruct s1 as [|c2 s2]; [done|]. cbn [String.length] in Hn.
  destruct (two_bytes c1 c2) eqn:H2.
  { apply no_lower_app; [|apply (IH (String.length s2)); lia].
    apply upper_of_no_lower. unfold two_bytes in H2.
    apply andb_true_iff in H2 as [[H1 _]%andb_true_iff Hc].
    cbn [all_chars]. by rewrite (lead_not_lower _ H1), (cont_not_lower _ Hc). }
  destruct s2 as [|c3 s3]; [done|]. cbn [String.length] in Hn.
  destruct (three_bytes c1 c2 c3) eqn:H3.
  { apply no_lower_app; [|apply (IH (String.length s3)); lia].
    apply upper_of_no_lower. unfold three_bytes in H3.
    apply andb_true_iff in H3 as [[[H1 _]%andb_true_iff Hc2]%andb_true_iff Hc3].
    cbn [all_chars].
    rewrite (lead_not_lower c1), (cont_not_lower _ Hc2), (cont_not_lower _ Hc3); [done|].
    apply Nat.leb_le. apply Nat.leb_le in H1. lia. }
  destruct s3 as [|c4 s4]; [done|]. cbn [String.length] in Hn.
  destruct (four_bytes c1 c2 c3 c4) eqn:H4; [|done].
  apply no_lower_app; [|apply (IH (String.length s4)); lia].
  apply upper_of_no_lower. unfold four_bytes in H4.
  apply andb_true_iff in H4 as [[[[H1 _]%andb_true_iff Hc2]%andb_true_iff Hc3]%andb_true_iff Hc4].
  cbn [all_chars].
  rewrite (lead_not_lower c1), (cont_not_lower _ Hc2), (cont_not_lower _ Hc3),
    (cont_not_lower _ Hc4); [done|].
  apply Nat.leb_le. apply Nat.leb_le in H1. lia.
Qed.

(** An upper-cased string has none of the letters a-z: no key that the
    handlers look up in [rooms] is the name of a property of
    [Object.prototype]. *)
Lemma toUpperCase_no_lower s : no_lower (toUpperCase s) = true.
Proof. by apply (toUpperCase_no_lower_bounded (String.length s)). Qed.

Lemma white2_ascii c c2 : (code_of c <? 128)%nat = true -> white2 c c2 = false.
Proof. intros H. unfold white2. by rewrite ascii_two_bytes. Qed.

Lemma white3_ascii c c2 c3 : (code_of c <? 128)%nat = true -> white3 c c2 c3 = false.
Proof. intros H. unfold white3. by rewrite ascii_three_bytes. Qed.

Lemma white_only_plain c s : plain c = true -> white_only (String c s) = false.
Proof.
  intros H. cbn [white_only]. rewrite (plain_not_white _ H).
  destruct s as [|c2 [|c3 s3]]; [done|..];
    rewrite ?(white2_ascii c _ (plain_ascii _ H)), ?(white3_ascii c _ _ (plain_ascii _ H));
    done.
Qed.

Lemma trimStart_plain c s : plain c = true -> trimStart (String c s) = String c s.
Proof.
  intros H. cbn [trimStart]. rewrite (plain_not_white _ H).
  destruct s as [|c2 [|c3 s3]]; [done|..];
    rewrite ?(white2_ascii c _ (plain_ascii _ H)), ?(white3_ascii c _ _ (plain_ascii _ H));
    done.
Qed.

(** White space in front is removed, however many bytes each character has. *)
Lemma trimStart_white_bounded n w s :
  String.length w <= n -> white_only w = true -> trimStart (w ++ s) = trimStart s.
Proof.
  revert w. induction n as [|n IH]; intros w Hn.
  - destruct w; [done|simpl in Hn; lia].
  - destruct w as [|c1 [|c2 [|c3 s3]]]; simpl in Hn; [done|..].
    + cbn [white_only]. destruct (white1 c1) eqn:E1; [|done]. intros _.
      simpl. by rewrite E1.
    + cbn [white_only]. destruct (white1 c1) eqn:E1.
      * intros Hw. change (String c1 (String c2 "") ++ s) with (String c1 (String c2 "" ++ s)).
        cbn [trimStart]. rewrite E1. apply IH; [simpl; lia|done].
      * destruct (white2 c1 c2) eqn:E2; [|done]. intros _.
        simpl. by rewrite E1, E2.
    + cbn [white_only]. destruct (white1 c1) eqn:E1.
      * intros Hw.
        change (String c1 (String c2 (String c3 s3)) ++ s)
          with (String c1 (String c2 (String c3 s3) ++ s)).
        cbn [trimStart]. rewrite E1. apply IH; [simpl; lia|done].
      * destruct (white2 c1 c2) eqn:E2.
        -- intros Hw.
           change (String c1 (String c2 (String c3 s3)) ++ s)
             with (String c1 (String c2 (String c3 s3 ++ s))).
           cbn [trimStart]. rewrite E1, E2. apply IH; [simpl; lia|done].
        -- intros [E3 Hw]%andb_true_iff.
           change (String c1 (String c2 (String c3 s3)) ++ s)
             with (String c1 (String c2 (String c3 (s3 ++ s)))).
           cbn [trimStart]. rewrite E1, E2, E3. apply IH; [simpl; lia|done].
Qed.

Lemma trimStart_white w s : white_only w = true -> trimStart (w ++ s) = trimStart s.
Proof. by apply (trimStart_white_bounded (String.length w)). Qed.

Lemma trimStart_all_white w : white_only w = true -> trimStart w = "".
Proof.
  intros H. rewrite <- (append_empty w) at 1. by rewrite trimStart_white.
Qed.

Lemma trimEnd_all_white w : white_only w = true -> trimEnd w = "".
Proof. intros H. destruct w; [done|]. cbn [trimEnd]. by rewrite H. Qed.

Lemma trimEnd_plain s w :
  all_chars plain s = true -> white_only w = true -> trimEnd (s ++ w) = s.
Proof.
  intros Hs Hw. induction s as [|c s IH].
  - by apply trimEnd_all_white.
  - cbn [all_chars] in Hs. apply andb_true_iff in Hs as [Hc Hs].
    change (String c s ++ w) with (String c (s ++ w)). cbn [trimEnd].
    by rewrite (white_only_plain _ _ Hc), IH.
Qed.

Lemma trim_padded w1 s w2 :
  white_only w1 = true -> white_only w2 = true -> all_chars plain s = true ->
  trim (w1 ++ s ++ w2) = s.
Proof.
  intros H1 H2 Hs. unfold trim. rewrite trimStart_white by done.
  destruct s as [|c s].
  - simpl. by rewrite trimStart_all_white.
  - assert (Hc : plain c = true).
    { cbn [all_chars] in Hs. by apply andb_true_iff in Hs as [? _]. }
    change (String c s ++ w2) with (String c (s ++ w2)).
    rewrite (trimStart_plain _ _ Hc).
    by apply (trimEnd_plain (String c s)).
Qed.

(** TAB, LF, VT, FF, CR and SPACE are white space. *)
Lemma white_only_ascii w : all_chars white1 w = true -> white_only w = true.
Proof.
  induction w as [|c w IH]; [done|]. cbn [all_chars white_only].
  by intros [-> Hw]%andb_true_iff; apply IH.
Qed.

Lemma all_chars_lower_plain s :
  all_chars is_code_char s = true -> all_chars plain (toLowerCase s) = true.
Proof.
  induction s as [|c s IH]; cbn [all_chars toLowerCase]; [done|].
  intros [Hc Hs]%andb_true_iff. by rewrite lower_char_plain, IH.
Qed.

Lemma all_chars_code_plain s :
  all_chars is_code_char s = true -> all_chars plain s = true.
Proof.
  induction s as [|c s IH]; cbn [all_chars]; [done|].
  intros [Hc Hs]%andb_true_iff. by rewrite code_char_plain, IH.
Qed.

Lemma normalize_string s : normalize (JStr s) = Return (toUpperCase (trim s)).
Proof.
  unfold normalize, or_else. cbn [truthy]. case_bool_decide; [by subst|done].
Qed.

(** A room code between white space, in lower case or in upper case. *)
Lemma normalize_padded code w1 w2 :
  all_chars is_code_char code = true ->
  white_only w1 = true -> white_only w2 = true ->
  normalize (JStr (w1 ++ toLowerCase code ++ w2)) = Return code /\
  normalize (JStr (w1 ++ code ++ w2)) = Return code.
Proof.
  intros Hc H1 H2. rewrite !normalize_string. split.
  - rewrite trim_padded by auto using all_chars_lower_plain.
    by rewrite toUpperCase_toLowerCase.
  - rewrite trim_padded by auto using all_chars_code_plain.
    by rewrite toUpperCase_code.
Qed.

(** X5: a room code typed in lower case, or in upper case, with any white
    space of JavaScript around it (TAB, LF, VT, FF, CR, SPACE, U+00A0, U+1680,
    U+2000 to U+200A, U+2028, U+2029, U+202F, U+205F, U+3000, U+FEFF) or
    with none, is normalized to the code itself. *)
Lemma normalize_typed code w1 w2 :
  all_chars is_code_char code = true ->
  white_only w1 = true -> white_only w2 = true ->
  normalize (JStr (w1 ++ toLowerCase code ++ w2)) = Return code /\
  normalize (JStr (w1 ++ code ++ w2)) = Return code.
Proof. apply normalize_padded. Qed.

Lemma substring_digits n (r : list nat) :
  substring 0 n (digits36 r) = digits36 (take n r).
Proof.
  revert r. induction n as [|n IH]; intros [|d r]; cbn [substring digits36 take]; try done.
  by rewrite IH.
Qed.

Lemma upper_digit36 d :
  d < 36 ->
  is_code_char (upper_ascii (digit36 d)) = true /\ (code_of (digit36 d) <? 128)%nat = true.
Proof.
  intros H. do 36 (destruct d as [|d]; [by vm_compute|]). lia.
Qed.

Lemma upper_digits36 (r : list nat) :
  Forall (fun d => d < 36) r ->
  all_chars is_code_char (toUpperCase (digits36 r)) = true /\
  String.length (toUpperCase (digits36 r)) = length r.
Proof.
  induction 1 as [|d r Hd _ [IH1 IH2]]; [done|]. cbn [digits36].
  destruct (upper_digit36 d Hd) as [H1 H2].
  rewrite toUpperCase_ascii by done. cbn [all_chars String.length length].
  by rewrite H1, IH1, IH2.
Qed.

Lemma makeCode_digits (r : Random) : makeCode 4 r = toUpperCase (digits36 (take 4 r)).
Proof.
  unfold makeCode, slice, toString36. destruct r as [|d r]; [done|].
  replace (2 + 4 - 2) with 4 by done.
  change (substring 2 4 ("0." ++ digits36 (d :: r)))
    with (substring 0 4 (digits36 (d :: r))).
  by rewrite substring_digits.
Qed.

(** X4: [makeCode] gives upper-case letters and digits only, as many as the
    draw has digits and four at most. *)
Lemma makeCode_chars (r : Random) :
  valid_random r ->
  all_chars is_code_char (makeCode 4 r) = true /\
  String.length (makeCode 4 r) = length r `min` 4.
Proof.
  intros Hr. rewrite makeCode_digits.
  destruct (upper_digits36 (take 4 r)) as [H1 H2].
  - by apply Forall_take.
  - split; [done|]. rewrite H2, length_take. lia.
Qed.

End strings.

(** ** Who receives what *)
Section delivery.
Implicit Types (st : State) (id p code : string).

Lemma reaches_socket st p id :
  reaches st p (ToSocket id) = true <-> p ∈ sockets st /\ p = id.
Proof.
  unfold reaches. by rewrite andb_true_iff, !bool_decide_eq_true.
Qed.

Lemma reaches_own_room st p id :
  reaches st p (ToRoom (OwnRoom id)) = true <-> p ∈ sockets st /\ p = id.
Proof.
  unfold reaches, in_room. by rewrite andb_true_iff, !bool_decide_eq_true.
Qed.

Lemma reaches_code_room st p code :
  reaches st p (ToRoom (CodeRoom code)) = true <->
  p ∈ sockets st /\ (p, code) ∈ joined st.
Proof.
  unfold reaches, in_room. by rewrite andb_true_iff, !bool_decide_eq_true.
Qed.

Lemma reaches_code_room_except st p id code :
  reaches st p (ToRoomExcept id (CodeRoom code)) = true <->
  p ∈ sockets st /\ p ≠ id /\ (p, code) ∈ joined st.
Proof.
  unfold reaches, in_room.
  by rewrite !andb_true_iff, negb_true_iff, bool_decide_eq_false, !bool_decide_eq_true.
Qed.

Lemma inbox_cons st p t ev d out :
  inbox st p (mkEmission t ev d :: out) =
  if reaches st p t then (ev, d) :: inbox st p out else inbox st p out.
Proof. unfold inbox. cbn [List.filter target]. by destruct (reaches st p t). Qed.

Lemma inbox_nil st p : inbox st p [] = [].
Proof. done. Qed.

(** A message for one socket is for that socket alone. *)
Lemma inbox_direct st id t ev d :
  (forall p, reaches st p t = true <-> p ∈ sockets st /\ p = id) ->
  (id ∈ sockets st -> inbox st id [mkEmission t ev d] = [(ev, d)]) /\
  (forall p, p ≠ id -> inbox st p [mkEmission t ev d] = []).
Proof.
  intros Ht. split.
  - intros Hid. rewrite inbox_cons. by rewrite (proj2 (Ht id)).
  - intros p Hp. rewrite inbox_cons. destruct (reaches st p t) eqn:E; [|done].
    apply Ht in E as [_ ?]. done.
Qed.

End delivery.

(** ** The handlers *)
Section handlers.
Implicit Types (st : State) (id p code : string) (room : Room) (v payload action : JsVal).

(** C4: a join-room whose normalized code names no room, or a room that has
    two players already, sends "Room unavailable" to the requester and to
    nobody else, and leaves the whole state as it was. *)
Theorem join_room_unavailable st id v code :
  id ∈ sockets st ->
  normalize v = Return code ->
  (rooms_get code (rooms st) = None \/
   exists room, rooms_get code (rooms st) = Some room /\ 2 <= length (players room)) ->
  let out := [mkEmission (ToSocket id) "room-error" (DText "Room unavailable")] in
  join_room st id v = Return (st, out) /\
  inbox st id out = [("room-error", DText "Room unavailable")] /\
  forall p, p ≠ id -> inbox st p out = [].
Proof.
  intros Hid Hn H out. split; [by apply (join_room_refused _ _ _ code)|].
  destruct (inbox_direct st id (ToSocket id) "room-error" (DText "Room unavailable"))
    as [H1 H2]; [intros p; apply reaches_socket|]. auto.
Qed.

Lemma join_room_unavailable_witness :
  "s3" ∈ sockets (state_after run_rejoined) /\
  normalize (JStr "ab3k ") = Return "AB3K" /\
  (exists room, rooms_get "AB3K" (rooms (state_after run_rejoined)) = Some room /\
                2 <= length (players room)) /\
  join_room (state_after run_rejoined) "s3" (JStr "ab3k ") =
  Return (state_after run_rejoined,
          [mkEmission (ToSocket "s3") "room-error" (DText "Room unavailable")]).
Proof.
  assert (H1 : "s3" ∈ sockets (state_after run_rejoined)) by (vm_compute; left).
  assert (H2 : normalize (JStr "ab3k ") = Return "AB3K") by reflexivity.
  assert (H3 : exists room,
             rooms_get "AB3K" (rooms (state_after run_rejoined)) = Some room /\
             2 <= length (players room)).
  { eexists. split; [vm_compute; reflexivity|]. simpl. lia. }
  split; [exact H1|]. split; [exact H2|]. split; [exact H3|].
  exact (proj1 (join_room_unavailable _ "s3" (JStr "ab3k ") "AB3K" H1 H2 (or_intror H3))).
Defined.

Lemma action_handler_member st id payload code action room :
  request payload = Return (code, action) ->
  rooms_get code (rooms st) = Some room -> id ∈ players room ->
  action_handler st id payload =
  if is_swap_sides action then
    match swapRoomRoles code (rooms st) with
    | (_, None) =>
        Return (st, [mkEmission (ToRoom (OwnRoom id)) "room-error"
                       (DText "Need 2 players to swap sides")])
    | (rs, Some roles) =>
        Return (with_rooms st rs,
                [mkEmission (ToRoom (CodeRoom code)) "roles-updated" (DCodeRoles code roles);
                 mkEmission (ToRoom (CodeRoom code)) "action" (DValue restart)])
    end
  else Return (st, [mkEmission (ToRoom (CodeRoom code)) "action" (DValue action)]).
Proof.
  intros Hreq Hget Hin. unfold action_handler. rewrite Hreq. cbn [mbind Result_bind].
  rewrite Hget. apply includes_true in Hin as ->. cbn [negb].
  destruct (is_swap_sides action); [|done].
  by destruct (swapRoomRoles code (rooms st)) as [rs [roles|]].
Qed.

Lemma action_handler_ignored st id payload code action :
  request payload = Return (code, action) ->
  (rooms_get code (rooms st) = None \/
   exists room, rooms_get code (rooms st) = Some room /\ id ∉ players room) ->
  action_handler st id payload = Return (st, []).
Proof.
  intros Hreq H. unfold action_handler. rewrite Hreq. cbn [mbind Result_bind].
  destruct H as [->|(room & -> & Hin)]; [done|].
  by apply includes_false in Hin as ->.
Qed.

(** C5: swap-sides from a member of a room that does not have exactly two
    players sends an error to the requester, to nobody else, and leaves the
    whole state as it was. *)
Theorem swap_sides_ineligible st id payload code action room :
  id ∈ sockets st ->
  request payload = Return (code, action) -> is_swap_sides action = true ->
  rooms_get code (rooms st) = Some room -> id ∈ players room ->
  length (players room) ≠ 2 ->
  let out := [mkEmission (ToRoom (OwnRoom id)) "room-error"
                (DText "Need 2 players to swap sides")] in
  action_handler st id payload = Return (st, out) /\
  inbox st id out = [("room-error", DText "Need 2 players to swap sides")] /\
  forall p, p ≠ id -> inbox st p out = [].
Proof.
  intros Hid Hreq Hswap Hget Hin Hlen out. split.
  - rewrite (action_handler_member _ _ _ code action room) by done.
    by rewrite Hswap, (swapRoomRoles_not_two _ _ room).
  - destruct (inbox_direct st id (ToRoom (OwnRoom id)) "room-error"
                (DText "Need 2 players to swap sides")) as [H1 H2];
      [intros p; apply reaches_own_room|]. auto.
Qed.

Lemma swap_sides_ineligible_witness :
  action_handler (state_after run_created) "s1" (swap_sides_in "ab3k") =
  Return (state_after run_created,
          [mkEmission (ToRoom (OwnRoom "s1")) "room-error"
             (DText "Need 2 players to swap sides")]).
Proof.
  refine (proj1 (swap_sides_ineligible (state_after run_created) "s1"
                   (swap_sides_in "ab3k") "AB3K"
                   (JObj [("type", JStr "swap-sides")])
                   (mkRoom "s1" ["s1"] {[ "s1" := white ]}) _ _ _ _ _ _)).
  - vm_compute. left.
  - reflexivity.
  - reflexivity.
  - vm_compute. reflexivity.
  - simpl. left.
  - simpl. lia.
Defined.

(** C7 fails in the code: an action event that carries no payload, or whose
    roomCode is an object with a property named toString, names no room; the
    handler does not drop it, it throws, at the destructuring of the payload
    or in [String(roomCode || "")]. *)
Theorem action_handler_throws st id v action :
  action_handler st id JUndefined = TypeError /\
  action_handler st id JNull = TypeError /\
  action_handler st id
    (JObj [("roomCode", JObj [("toString", v)]); ("action", action)]) = TypeError.
Proof. repeat split. Qed.

(** X19: an action that is not swap-sides, whose payload destructures and
    whose roomCode is converted, sent by a member of the room it names, is
    passed on unchanged in one broadcast to that room, which reaches the
    sender and every other player whose connection is open, and nobody outside
    the room; sent by a non-member, or naming no room, it is dropped: nothing
    is sent and the state stays as it was. *)
Theorem action_relay st id payload code action :
  reachable st -> id ∈ sockets st ->
  request payload = Return (code, action) -> is_swap_sides action = false ->
  (forall room,
      rooms_get code (rooms st) = Some room -> id ∈ players room ->
      let out := [mkEmission (ToRoom (CodeRoom code)) "action" (DValue action)] in
      action_handler st id payload = Return (st, out) /\
      inbox st id out = [("action", DValue action)] /\
      (forall p, p ∈ players room -> p ∈ sockets st ->
         inbox st p out = [("action", DValue action)]) /\
      (forall p, p ∉ players room -> inbox st p out = [])) /\
  (forall room,
      rooms_get code (rooms st) = Some room -> id ∉ players room ->
      action_handler st id payload = Return (st, [])) /\
  (rooms_get code (rooms st) = None ->
   action_handler st id payload = Return (st, [])).
Proof.
  intros Hreach Hid Hreq Hswap.
  destruct (reachable_invariant _ Hreach) as (_ & Hs1 & Hs2).
  split; [|split].
  - intros room Hget Hin out.
    assert (Hto : forall p, p ∈ players room -> p ∈ sockets st ->
                    inbox st p out = [("action", DValue action)]).
    { intros p Hp Hopen. unfold out. rewrite inbox_cons.
      rewrite (proj2 (reaches_code_room st p code)); [done|].
      split; [done|]. by eapply Hs1. }
    split; [|split; [|split]]; [|by apply Hto|done|].
    + rewrite (action_handler_member _ _ _ code action room) by done.
      by rewrite Hswap.
    + intros p Hp. unfold out. rewrite inbox_cons.
      destruct (reaches st p _) eqn:E; [|done].
      apply reaches_code_room in E as [_ Hj].
      destruct (Hs2 _ _ Hj) as (_ & room' & Hget' & Hp').
      rewrite Hget in Hget'. by simplify_eq.
  - intros room Hget Hin. apply (action_handler_ignored _ _ _ code action); eauto.
  - intros Hget. apply (action_handler_ignored _ _ _ code action); eauto.
Qed.

Lemma action_relay_witness :
  action_handler (state_after run_paired) "s2" (move_in "ab3k") =
  Return (state_after run_paired,
          [mkEmission (ToRoom (CodeRoom "AB3K")) "action"
             (DValue (JObj [("type", JStr "move"); ("cell", JStr "b2")]))]) /\
  inbox (state_after run_paired) "s1"
    [mkEmission (ToRoom (CodeRoom "AB3K")) "action"
       (DValue (JObj [("type", JStr "move"); ("cell", JStr "b2")]))] =
  [("action", DValue (JObj [("type", JStr "move"); ("cell", JStr "b2")]))].
Proof.
  assert (Hreach : reachable (state_after run_paired)).
  { apply (run_reachable init run_paired); [apply reachable_init|].
    vm_compute. reflexivity. }
  assert (Hid : "s2" ∈ sockets (state_after run_paired)) by (vm_compute; left).
  destruct (action_relay (state_after run_paired) "s2" (move_in "ab3k") "AB3K"
              (JObj [("type", JStr "move"); ("cell", JStr "b2")])
              Hreach Hid eq_refl eq_refl) as [Hmember _].
  destruct (Hmember (mkRoom "s1" ["s1"; "s2"] (<["s2" := black]> {[ "s1" := white ]})))
    as (H1 & _ & H2 & _).
  - vm_compute. reflexivity.
  - simpl. right. left.
  - split; [exact H1|]. apply H2.
    + simpl. left.
    + vm_compute. right. left.
Defined.

(** C8: create-room, once a draw gives a code that is free, registers under
    that code a room that was not there, with the creator as its only player,
    in role white, and as its host; the creator, and nobody else, is sent
    room-created with the code and the role white. *)
Theorem create_room_registers st id (d : Random) (retries : list Random) :
  id ∈ sockets st ->
  Exists (fun d' => rooms_get (makeCode 4 d') (rooms st) = None) (d :: retries) ->
  exists code st',
    let out := [mkEmission (ToSocket id) "room-created" (DCodeRole code white)] in
    create_room st id d retries = Some (st', out) /\
    code ∈ makeCode 4 <$> d :: retries /\
    rooms_get code (rooms st) = None /\
    rooms_get code (rooms st') = Some (mkRoom id [id] {[ id := white ]}) /\
    (forall code', code' ≠ code ->
       rooms_get code' (rooms st') = rooms_get code' (rooms st)) /\
    inbox st' id out = [("room-created", DCodeRole code white)] /\
    forall p, p ≠ id -> inbox st' p out = [].
Proof.
  intros Hid Hfree.
  destruct (freshCode_terminates _ _ _ Hfree) as [code Hcode].
  exists code. eexists. cbn zeta.
  split; [unfold create_room; rewrite Hcode; reflexivity|].
  split; [by eapply freshCode_drawn|].
  split; [by eapply freshCode_free|].
  cbn [rooms socket_join with_rooms].
  split; [by rewrite rooms_get_set, decide_True|].
  split; [intros code' Hne; by rewrite rooms_get_set, decide_False|].
  match goal with |- context [inbox ?s _ _] => set (st' := s) end.
  destruct (inbox_direct st' id (ToSocket id) "room-created" (DCodeRole code white))
    as [H1 H2]; [intros p; apply reaches_socket|]. auto.
Qed.

Lemma create_room_registers_witness :
  exists code st',
    create_room (state_after run_created) "s1" draw_AB3K [draw_half; draw_CD12] =
    Some (st', [mkEmission (ToSocket "s1") "room-created" (DCodeRole code white)]) /\
    rooms_get code (rooms st') = Some (mkRoom "s1" ["s1"] {[ "s1" := white ]}).
Proof.
  destruct (create_room_registers (state_after run_created) "s1" draw_AB3K
              [draw_half; draw_CD12]) as (code & st' & H1 & _ & _ & H2 & _).
  - vm_compute. left.
  - apply Exists_cons_tl, Exists_cons_hd. vm_compute. reflexivity.
  - exists code, st'. split; [exact H1|exact H2].
Defined.

Lemma swapped_opposite (r : Role) : swapped (Some r) = opposite r.
Proof. by destruct r. Qed.

Lemma opposite_opposite (m : gmap string Role) : opposite <$> (opposite <$> m) = m.
Proof.
  apply map_eq. intros i. rewrite !lookup_fmap.
  by destruct (m !! i) as [[]|].
Qed.

(** The two assignments of [swapRoomRoles], on two different players who hold
    the only roles of the room. *)
Lemma swap_two_roles (m : gmap string Role) a b :
  a ≠ b -> (forall p, p ∈ [a; b] <-> is_Some (m !! p)) ->
  <[b := swapped (<[a := swapped (m !! a)]> m !! b)]> (<[a := swapped (m !! a)]> m) =
  opposite <$> m.
Proof.
  intros Hab Hkeys.
  destruct (proj1 (Hkeys a)) as [ra Ha]; [by left|].
  destruct (proj1 (Hkeys b)) as [rb Hb]; [by right; left|].
  rewrite lookup_insert_ne, Ha, Hb, !swapped_opposite by done.
  apply map_eq. intros i. rewrite lookup_fmap.
  destruct (decide (i = b)) as [->|Hib]; [by rewrite lookup_insert_eq, Hb|].
  rewrite lookup_insert_ne by done.
  destruct (decide (i = a)) as [->|Hia]; [by rewrite lookup_insert_eq, Ha|].
  rewrite lookup_insert_ne by done.
  destruct (m !! i) as [r|] eqn:Hi; [|done].
  assert (i ∈ [a; b]) as Hin by (apply Hkeys; eauto).
  apply elem_of_cons in Hin as [->|Hin]; [done|].
  by apply list_elem_of_singleton in Hin.
Qed.

(** C2, amended: in a room of two different players, swap-sides from a member
    gives every player the other role, a second swap-sides brings the first
    roles back, and the room is sent roles-updated and then the restart
    action, which every player whose connection is open receives in that
    order. *)
Theorem swap_sides_two_players st id payload code action room :
  reachable st -> id ∈ sockets st ->
  request payload = Return (code, action) -> is_swap_sides action = true ->
  rooms_get code (rooms st) = Some room -> id ∈ players room ->
  length (players room) = 2 -> NoDup (players room) ->
  swap_exchanges st id payload code room.
Proof.
  intros Hreach Hid Hreq Hswap Hget Hin Hlen Hnd.
  destruct (reachable_invariant _ Hreach) as (Hwf & Hs1 & _).
  destruct (Hwf _ _ Hget) as [_ Hkeys].
  destruct room as [host ps m]. cbn [players roles hostId] in *.
  destruct ps as [|a [|b [|c l]]]; try done.
  assert (Hab : a ≠ b).
  { apply NoDup_cons in Hnd as [Hnd _]. intros ->. apply Hnd. by left. }
  pose proof (swap_two_roles m a b Hab Hkeys) as Hflip.
  set (room1 := mkRoom host [a; b] (opposite <$> m)).
  set (st1 := with_rooms st (rooms_replace code room1 (rooms st))).
  assert (Hget1 : rooms_get code (rooms st1) = Some room1).
  { unfold st1. cbn [rooms with_rooms]. by erewrite rooms_get_replace_eq. }
  exists st1, (opposite <$> m). cbn zeta.
  split; [|split; [done|split; [done|split; [|split]]]].
  - rewrite (action_handler_member _ _ _ code action (mkRoom host [a; b] m)) by done.
    rewrite Hswap, (swapRoomRoles_two _ _ (mkRoom host [a; b] m) a b) by done.
    cbn [players roles hostId]. by rewrite Hflip.
  - intros a' b' [= <- <-]. cbn [roles]. rewrite !lookup_fmap.
    destruct (proj1 (Hkeys a)) as [ra Ha]; [by left|].
    destruct (proj1 (Hkeys b)) as [rb Hb]; [by right; left|].
    rewrite Ha, Hb. intros Hne. by destruct ra, rb.
  - intros p Hp Hopen.
    assert (reaches st1 p (ToRoom (CodeRoom code)) = true) as Hr.
    { apply reaches_code_room. unfold st1. cbn [sockets joined with_rooms].
      split; [done|]. by eapply Hs1. }
    by rewrite !inbox_cons, Hr.
  - exists (with_rooms st1 (rooms_replace code (mkRoom host [a; b] m) (rooms st1))).
    assert (Hkeys1 : forall p, p ∈ [a; b] <-> is_Some ((opposite <$> m) !! p)).
    { intros p. rewrite lookup_fmap, fmap_is_Some. apply Hkeys. }
    pose proof (swap_two_roles (opposite <$> m) a b Hab Hkeys1) as Hflip1.
    rewrite opposite_opposite in Hflip1.
    split.
    + rewrite (action_handler_member _ _ _ code action room1) by done.
      rewrite Hswap, (swapRoomRoles_two _ _ room1 a b) by done.
      unfold room1. cbn [players roles hostId]. by rewrite Hflip1.
    + cbn [rooms with_rooms]. by erewrite rooms_get_replace_eq.
Qed.

Lemma swap_sides_two_players_witness :
  swap_exchanges (state_after run_paired) "s2" (swap_sides_in " ab3k") "AB3K"
    (mkRoom "s1" ["s1"; "s2"] (<["s2" := black]> {[ "s1" := white ]})).
Proof.
  apply (swap_sides_two_players (state_after run_paired) "s2" (swap_sides_in " ab3k")
           "AB3K" (JObj [("type", JStr "swap-sides")])).
  - apply (run_reachable init run_paired); [apply reachable_init|].
    vm_compute. reflexivity.
  - vm_compute. left.
  - reflexivity.
  - reflexivity.
  - vm_compute. reflexivity.
  - simpl. right. left.
  - reflexivity.
  - simpl. apply NoDup_cons. split.
    + intros H. apply list_elem_of_singleton in H. discriminate H.
    + apply NoDup_singleton.
Defined.

(** C2 as stated fails: a connection that joined its own room is that room's
    two players, and swap-sides, which assigns its role twice, leaves it the
    role it had. *)
Lemma swap_sides_own_room_unchanged :
  let st := state_after run_self_joined in
  let room := mkRoom "s1" ["s1"; "s1"] {[ "s1" := black ]} in
  reachable st /\ "s1" ∈ sockets st /\
  request (swap_sides_in "ab3k") = Return ("AB3K", JObj [("type", JStr "swap-sides")]) /\
  rooms_get "AB3K" (rooms st) = Some room /\
  "s1" ∈ players room /\ length (players room) = 2 /\
  ~ swap_exchanges st "s1" (swap_sides_in "ab3k") "AB3K" room.
Proof.
  cbn zeta. split; [|split; [|split; [|split; [|split; [|split]]]]].
  - apply (run_reachable init run_self_joined); [apply reachable_init|].
    vm_compute. reflexivity.
  - vm_compute. left.
  - reflexivity.
  - vm_compute. reflexivity.
  - simpl. left.
  - reflexivity.
  - intros (st1 & roles1 & Hact & _ & Hflip & _).
    cbn [roles] in Hflip.
    assert (Hact' : exists st1',
      action_handler (state_after run_self_joined) "s1" (swap_sides_in "ab3k") =
      Return (st1', [mkEmission (ToRoom (CodeRoom "AB3K")) "roles-updated"
                       (DCodeRoles "AB3K" {[ "s1" := black ]});
                     mkEmission (ToRoom (CodeRoom "AB3K")) "action" (DValue restart)])).
    { eexists. vm_compute. reflexivity. }
    destruct Hact' as [st1' Hact']. rewrite Hact' in Hact.
    injection Hact as _ Hroles. rewrite <- Hroles in Hflip.
    apply (f_equal (fun m => m !! "s1")) in Hflip.
    vm_compute in Hflip. discriminate Hflip.
Qed.

(** X9: what join-room does do on a room of one player: the joiner is appended
    to the players with the role black, joins the broadcast group of the room,
    and is sent room-joined with that role. *)
Lemma join_room_joins st id v code room :
  id ∈ sockets st ->
  normalize v = Return code ->
  rooms_get code (rooms st) = Some room -> length (players room) = 1 ->
  exists st' out,
    join_room st id v = Return (st', out) /\
    rooms_get code (rooms st') =
      Some (mkRoom (hostId room) (players room ++ [id]) (<[id := black]> (roles room))) /\
    (forall code', code' ≠ code ->
       rooms_get code' (rooms st') = rooms_get code' (rooms st)) /\
    (id, code) ∈ joined st' /\
    head (inbox st' id out) = Some ("room-joined", DCodeRole code black).
Proof.
  intros Hid Hn Hget Hlen. eexists _, _.
  split; [apply (join_room_accepted _ _ _ code room); [done..|lia]|].
  cbn [rooms joined socket_join with_rooms].
  split; [by erewrite rooms_get_replace_eq|].
  split; [intros code' Hne; by rewrite rooms_get_replace_ne|].
  split; [by left|].
  rewrite inbox_cons. rewrite (proj2 (reaches_socket _ id id)); [done|].
  by split.
Qed.

(** X13: what the disconnect handler does do for a member of a room whose
    code is not empty: the player and its role are taken out; a room left
    empty is deleted, and a join-room for its code is then refused; otherwise
    the one player left stays, becomes host if the host left, and receives
    opponent-left once if its connection is open. *)
Lemma disconnect_member st id code room :
  reachable st -> id ∈ sockets st ->
  getRoomOfSocket id (rooms st) = Some code -> code ≠ "" ->
  rooms_get code (rooms st) = Some room ->
  let out := [mkEmission (ToRoomExcept id (CodeRoom code)) "opponent-left" (DCode code)] in
  exists st',
    disconnect st id = (st', out) /\
    match filter (fun p => p ≠ id) (players room) with
    | [] =>
        rooms_get code (rooms st') = None /\
        forall id' v, normalize v = Return code ->
          join_room st' id' v =
          Return (st', [mkEmission (ToSocket id') "room-error" (DText "Room unavailable")])
    | p0 :: rest =>
        rest = [] /\
        rooms_get code (rooms st') =
          Some (mkRoom (if decide (hostId room = id) then p0 else hostId room) [p0]
                  (delete id (roles room))) /\
        (p0 ∈ sockets st -> inbox st' p0 out = [("opponent-left", DCode code)])
    end.
Proof.
  intros Hreach Hid Hfind Hcode Hget out.
  destruct (reachable_invariant _ Hreach) as (Hwf & Hs1 & _).
  destruct (getRoomOfSocket_Some _ _ _ Hfind) as (room' & Hget' & Hin).
  rewrite Hget in Hget'. simplify_eq.
  unfold disconnect, disconnect_handler. cbn [rooms close_socket].
  rewrite Hfind, bool_decide_eq_false_2, Hget by done.
  destruct (filter _ (players room')) as [|p0 rest] eqn:Hf.
  - eexists. split; [done|]. cbn [rooms with_rooms].
    split; [by rewrite rooms_get_delete, decide_True|].
    intros id' v Hn. apply (join_room_refused _ _ _ code); [done|left].
    cbn [rooms with_rooms]. by rewrite rooms_get_delete, decide_True.
  - destruct (room_wf_leave room' id p0 rest) as [-> _]; [by eapply Hwf|done..|].
    eexists. split; [done|]. cbn [rooms with_rooms].
    split; [done|]. split; [by erewrite rooms_get_replace_eq|].
    intros Hopen. unfold out. rewrite inbox_cons.
    assert (Hp0 : p0 ∈ filter (fun p => p ≠ id) (players room')) by (rewrite Hf; left).
    apply list_elem_of_filter in Hp0 as [Hne Hp0].
    rewrite (proj2 (reaches_code_room_except _ p0 id code)); [done|].
    cbn [sockets joined]. split; [|split; [done|]].
    + by apply list_elem_of_filter.
    + apply list_elem_of_filter. split; [done|]. by eapply Hs1.
Qed.

Lemma two_same_not_one_of_each room a b (r : Role) :
  players room = [a; b] -> roles room !! a = Some r -> roles room !! b = Some r ->
  ~ one_of_each room.
Proof.
  intros Hp Ha Hb H. destruct (H (opposite r)) as (p & Hin & Hrole & _).
  rewrite Hp in Hin. apply elem_of_cons in Hin as [->|Hin].
  - rewrite Ha in Hrole. by destruct r.
  - apply list_elem_of_singleton in Hin as ->. rewrite Hb in Hrole. by destruct r.
Qed.

(** C1 fails in the code: after the creator of a room has left, the player
    who stays holds black, and the next connection to join is given black as
    well; the room then has two players and nobody holds white. *)
Theorem rejoined_room_two_black :
  let st := state_after run_rejoined in
  let room := mkRoom "s2" ["s2"; "s3"] (<["s3" := black]> {[ "s2" := black ]}) in
  reachable st /\
  rooms_get "AB3K" (rooms st) = Some room /\
  length (players room) = 2 /\
  roles room !! "s2" = Some black /\ roles room !! "s3" = Some black /\
  ~ room_ok room.
Proof.
  cbn zeta. split; [|split; [|split; [|split; [|split]]]].
  - apply (run_reachable init run_rejoined); [apply reachable_init|].
    vm_compute. reflexivity.
  - vm_compute. reflexivity.
  - reflexivity.
  - vm_compute. reflexivity.
  - vm_compute. reflexivity.
  - intros [_ H]. specialize (H eq_refl). revert H.
    apply (two_same_not_one_of_each _ "s2" "s3" black); [done|..];
      vm_compute; reflexivity.
Qed.

(** C3 fails in the code: after the creator has left, a join-room names, in
    lower case, a room of exactly one player, who holds black; it succeeds and
    gives the joiner black, but the roles mapping then holds black twice and
    white not at all. *)
Theorem join_after_host_left_two_black :
  let st := state_after run_host_left in
  let room := mkRoom "s2" ["s2"] {[ "s2" := black ]} in
  let room' := mkRoom "s2" ["s2"; "s3"] (<["s3" := black]> {[ "s2" := black ]}) in
  reachable st /\ "s3" ∈ sockets st /\
  normalize (JStr "ab3k") = Return "AB3K" /\
  rooms_get "AB3K" (rooms st) = Some room /\ length (players room) = 1 /\
  (exists st',
     join_room st "s3" (JStr "ab3k") =
     Return (st',
             [mkEmission (ToSocket "s3") "room-joined" (DCodeRole "AB3K" black);
              mkEmission (ToRoom (OwnRoom "s2")) "opponent-joined" (DCode "AB3K");
              mkEmission (ToRoom (CodeRoom "AB3K")) "room-ready"
                (DCodeRoles "AB3K" (roles room'))]) /\
     rooms_get "AB3K" (rooms st') = Some room') /\
  ~ one_of_each room'.
Proof.
  cbn zeta. split; [|split; [|split; [|split; [|split; [|split]]]]].
  - apply (run_reachable init run_host_left); [apply reachable_init|].
    vm_compute. reflexivity.
  - vm_compute. left.
  - reflexivity.
  - vm_compute. reflexivity.
  - reflexivity.
  - eexists. split; vm_compute; reflexivity.
  - apply (two_same_not_one_of_each _ "s2" "s3" black); [done|..];
      vm_compute; reflexivity.
Qed.

(** C6 fails in the code: when [Math.random()] returned 0 the room was given
    the empty code; [getRoomOfSocket] finds it, [if (!code) return] takes the
    empty string for no room, and the disconnect of its only member leaves
    the room, its player and its role in place and sends nothing. *)
Theorem disconnect_empty_code_kept :
  let st := state_after run_empty_code in
  let room := mkRoom "s1" ["s1"] {[ "s1" := white ]} in
  reachable st /\ "s1" ∈ sockets st /\
  rooms_get "" (rooms st) = Some room /\
  getRoomOfSocket "s1" (rooms st) = Some "" /\
  disconnect st "s1" = (close_socket st "s1", []) /\
  rooms_get "" (rooms (disconnect st "s1").1) = Some room.
Proof.
  cbn zeta. split; [|split; [|split; [|split; [|split]]]].
  - apply (run_reachable init run_empty_code); [apply reachable_init|].
    vm_compute. reflexivity.
  - vm_compute. left.
  - vm_compute. reflexivity.
  - reflexivity.
  - vm_compute. reflexivity.
  - vm_compute. reflexivity.
Qed.

(** The same handler cleans one room only: a connection that created two
    rooms stays the player and host of the second one after it is gone. *)
Lemma disconnect_second_room_kept :
  let st := state_after run_two_rooms in
  reachable st /\
  getRoomOfSocket "s1" (rooms st) = Some "AB3K" /\
  rooms_get "AB3K" (rooms (disconnect st "s1").1) = None /\
  rooms_get "CD12" (rooms (disconnect st "s1").1) =
    Some (mkRoom "s1" ["s1"] {[ "s1" := white ]}) /\
  "s1" ∉ sockets (disconnect st "s1").1.
Proof.
  cbn zeta. split; [|split; [|split; [|split]]].
  - apply (run_reachable init run_two_rooms); [apply reachable_init|].
    vm_compute. reflexivity.
  - reflexivity.
  - vm_compute. reflexivity.
  - vm_compute. reflexivity.
  - vm_compute. apply not_elem_of_nil.
Qed.

(** C9 fails in the code: [makeCode] keeps the digits that [toString(36)]
    printed, and 0.5 prints as 0.i and 0 as 0; the codes are then "I" and the
    empty string. *)
Theorem makeCode_short :
  valid_random draw_half /\ toString36 draw_half = "0.i" /\
  makeCode 4 draw_half = "I" /\
  valid_random draw_zero /\ toString36 draw_zero = "0" /\
  makeCode 4 draw_zero = "".
Proof.
  split; [|split; [|split; [|split; [|split]]]]; try reflexivity.
  - apply Forall_cons. split; [vm_compute; lia|apply Forall_nil_2].
  - apply Forall_nil_2.
Qed.

(** C10 fails in the code: an object that has a property named toString
    cannot be converted by [String], and the handler throws. *)
Theorem join_room_throws st id v :
  join_room st id (JObj [("toString", v)]) = TypeError.
Proof. reflexivity. Qed.

(** X11: a join-room whose payload is missing, null, a boolean, a number or a
    string does not throw: the payload is converted to a code and the handler
    answers, either with "Room unavailable" to the requester and no change,
    when the code names no room or a room of two players, or by letting the
    requester into the room of less than two players that the code names,
    with room-joined, opponent-joined and room-ready. *)
Lemma join_room_primitive st id v :
  match v with JArr _ | JObj _ => False | _ => True end ->
  exists code,
    normalize v = Return code /\
    (((rooms_get code (rooms st) = None \/
       exists room, rooms_get code (rooms st) = Some room /\ 2 <= length (players room)) /\
      join_room st id v =
      Return (st, [mkEmission (ToSocket id) "room-error" (DText "Room unavailable")])) \/
     (exists room,
        rooms_get code (rooms st) = Some room /\ length (players room) < 2 /\
        let room' := mkRoom (hostId room) (players room ++ [id])
                       (<[id := black]> (roles room)) in
        join_room st id v =
        Return (socket_join (with_rooms st (rooms_replace code room' (rooms st))) id code,
                [mkEmission (ToSocket id) "room-joined" (DCodeRole code black);
                 mkEmission (ToRoom (OwnRoom (hostId room))) "opponent-joined" (DCode code);
                 mkEmission (ToRoom (CodeRoom code)) "room-ready"
                   (DCodeRoles code (roles room'))]))).
Proof.
  intros Hv. assert (exists code, normalize v = Return code) as [code Hn].
  { unfold normalize, or_else.
    destruct v as [| |[]|[[] t]|s| |]; cbn [truthy num_falsy negb] in *;
      try done; try by eexists.
    case_bool_decide; by eexists. }
  exists code. split; [done|].
  destruct (rooms_get code (rooms st)) as [room|] eqn:Hget.
  - destruct (decide (2 <= length (players room))) as [Hlen|Hlen].
    + left. split; [by eauto|]. apply (join_room_refused _ _ _ code); by eauto.
    + right. exists room. split; [done|]. split; [lia|].
      apply (join_room_accepted _ _ _ code room); [done..|lia].
  - left. split; [by left|]. apply (join_room_refused _ _ _ code); by eauto.
Qed.

(** A join-room without payload looks up the empty code. *)
Lemma join_room_no_payload st id :
  rooms_get "" (rooms st) = None ->
  join_room st id JUndefined =
  Return (st, [mkEmission (ToSocket id) "room-error" (DText "Room unavailable")]).
Proof. intros H. apply (join_room_refused _ _ _ ""); [done|by left]. Qed.

(** The players a broadcast cannot reach are those whose connection is
    closed: a connection that created two rooms and went away is still listed
    in the second one, and an action sent there by a later joiner comes back
    to the joiner only. *)
Lemma action_relay_closed_player :
  let st := state_after (run_two_rooms ++
              [Connect "s2"; Disconnect "s1"; JoinRoom "s2" (JStr "cd12")]) in
  let out := [mkEmission (ToRoom (CodeRoom "CD12")) "action"
                (DValue (JObj [("type", JStr "move"); ("cell", JStr "b2")]))] in
  (exists room, rooms_get "CD12" (rooms st) = Some room /\ players room = ["s1"; "s2"]) /\
  sockets st = ["s2"] /\
  action_handler st "s2" (move_in "cd12") = Return (st, out) /\
  inbox st "s2" out = [("action", DValue (JObj [("type", JStr "move"); ("cell", JStr "b2")]))] /\
  inbox st "s1" out = [].
Proof.
  cbn zeta. split; [|split; [|split; [|split]]].
  - eexists. split; vm_compute; reflexivity.
  - vm_compute. reflexivity.
  - vm_compute. reflexivity.
  - vm_compute. reflexivity.
  - vm_compute. reflexivity.
Qed.

(** ** Checks of the model on small inputs *)

(** [Object.keys]: array indices first, by value, then the other keys in the
    order they were added. *)
Example keys_order :
  let room := mkRoom "s" ["s"] {[ "s" := white ]} in
  keys (rooms_set "0123" room (rooms_set "7" room (rooms_set "12" room
         (rooms_set "AB3K" room (rooms_set "ZZ" room []))))) =
  ["7"; "12"; "ZZ"; "AB3K"; "0123"].
Proof. reflexivity. Qed.

Example String_of_array :
  ToString (JArr [JNum (mkNumber false "1"); JNull; JArr [JStr "a"; JStr "b"]]) =
  Return "1,,a,b".
Proof. reflexivity. Qed.

Example normalize_examples :
  normalize JUndefined = Return EmptyString /\
  normalize (JNum (mkNumber true "0")) = Return EmptyString /\
  normalize (JNum (mkNumber false "1234")) = Return "1234" /\
  normalize (JBool true) = Return "TRUE" /\
  normalize (JObj [("code", JStr "ab3k")]) = Return "[OBJECT OBJECT]" /\
  normalize (JArr [JStr " ab3k"]) = Return "AB3K" /\
  normalize (JArr [JObj [("toString", JNull)]]) = TypeError.
Proof. repeat split. Qed.

(** Outside ASCII: a no-break space (U+00A0) is trimmed, dotless i (U+0131)
    becomes I, long s (U+017F) becomes S and sharp s (U+00DF) becomes SS. *)
Example normalize_unicode_examples :
  normalize (JStr (encode_all [160; 97; 98; 51; 107]%N)) = Return "AB3K" /\
  normalize (JStr (encode_all [305]%N)) = Return "I" /\
  normalize (JStr (encode_all [383; 8233]%N)) = Return "S" /\
  normalize (JStr (encode_all [223]%N)) = Return "SS" /\
  normalize (JStr (encode_all [233]%N)) = Return (encode_all [201]%N).
Proof. repeat split. Qed.

Example makeCode_examples :
  makeCode 4 draw_AB3K = "AB3K" /\ makeCode 4 draw_CD12 = "CD12".
Proof. split; reflexivity. Qed.

End handlers.

(** ** Further properties of the handlers *)
Section coverage.
Implicit Types (st : State) (id p code : string) (room : Room) (v payload : JsVal).

Lemma keys_rooms_replace code room (rs : Rooms) :
  keys (rooms_replace code room rs) = keys rs.
Proof.
  unfold keys. induction rs as [|[k0 r0] rs IH]; cbn [rooms_replace]; [done|].
  case_decide; rewrite !fmap_cons; cbn [fst]; [by subst|by rewrite IH].
Qed.

Lemma host_listed_handle st ev st' out :
  (forall code room, rooms_get code (rooms st) = Some room -> hostId room ∈ players room) ->
  handle st ev = Some (st', out) ->
  forall code room, rooms_get code (rooms st') = Some room -> hostId room ∈ players room.
Proof.
  intros Hh. destruct ev as [id|id d retries|id v|id payload|id]; cbn [handle].
  - destruct (_ || _); [done|]. by intros [= <- <-].
  - case_bool_decide; [|done]. unfold create_room.
    destruct (freshCode _ _ _) as [c|]; [|done]. cbn [mbind option_bind].
    intros [= <- <-] code room. cbn [rooms socket_join with_rooms].
    rewrite rooms_get_set. case_decide; [|by apply Hh].
    intros [= <-]. by left.
  - case_bool_decide; [|done]. unfold join_room.
    destruct (normalize v) as [c|]; [|done]. cbn [mbind Result_bind].
    destruct (rooms_get c (rooms st)) as [room0|] eqn:Hget;
      [|by intros [= <- <-]].
    destruct (2 <=? _)%nat; [by intros [= <- <-]|].
    intros [= <- <-] code room. cbn [rooms socket_join with_rooms].
    rewrite rooms_get_replace. case_decide; [|by apply Hh].
    rewrite Hget. intros [= <-]. cbn [hostId players].
    apply elem_of_app. left. by eapply Hh.
  - case_bool_decide; [|done]. unfold action_handler.
    destruct (request payload) as [[c action]|]; [|done]. cbn [mbind Result_bind].
    destruct (rooms_get c (rooms st)) as [room0|] eqn:Hget; [|by intros [= <- <-]].
    destruct (negb _); [by intros [= <- <-]|].
    destruct (is_swap_sides action); [|by intros [= <- <-]].
    unfold swapRoomRoles. rewrite Hget.
    destruct (players room0) as [|a [|b [|? ?]]] eqn:Hp; try by intros [= <- <-].
    intros [= <- <-] code room. cbn [rooms with_rooms].
    rewrite rooms_get_replace. case_decide; [|by apply Hh].
    rewrite Hget. intros [= <-]. cbn [hostId players]. rewrite <- Hp. by eapply Hh.
  - case_bool_decide; [|done]. unfold disconnect, disconnect_handler.
    cbn [rooms close_socket].
    destruct (getRoomOfSocket id (rooms st)) as [c|]; [|by intros [= <- <-]].
    case_bool_decide; [by intros [= <- <-]|].
    destruct (rooms_get c (rooms st)) as [room0|] eqn:Hget; [|by intros [= <- <-]].
    destruct (filter _ (players room0)) as [|p0 ps] eqn:Hf.
    + intros [= <- <-] code room. cbn [rooms with_rooms].
      rewrite rooms_get_delete. case_decide; [done|]. by apply Hh.
    + intros [= <- <-] code room. cbn [rooms with_rooms].
      rewrite rooms_get_replace. case_decide; [|by apply Hh].
      rewrite Hget. intros [= <-]. cbn [hostId players].
      case_decide as Hhost; [by left|].
      rewrite <- Hf. apply list_elem_of_filter. split; [done|]. by eapply Hh.
Qed.

Lemma reachable_host_listed st code room :
  reachable st -> rooms_get code (rooms st) = Some room -> hostId room ∈ players room.
Proof.
  intros Hr. revert code room. induction Hr as [|st ev st' out _ IH Hstep].
  - intros ? ? [=].
  - by eapply host_listed_handle.
Qed.

Lemma reachable_example (evs : list Event) st :
  run init evs = Some st -> reachable st.
Proof. apply run_reachable, reachable_init. Qed.

(** X1: in every state the server can reach, a room has one or two players,
    and the keys of its roles are its players. *)
Theorem room_shape_on_every_run st code room :
  reachable st -> rooms_get code (rooms st) = Some room ->
  (length (players room) = 1 \/ length (players room) = 2) /\
  (forall p, p ∈ players room <-> is_Some (roles room !! p)).
Proof.
  intros Hr Hget. destruct (reachable_invariant _ Hr) as [Hwf _]. by eapply Hwf.
Qed.

Lemma room_shape_on_every_run_witness :
  length (players (mkRoom "s2" ["s2"; "s3"] (<["s3" := black]> {[ "s2" := black ]}))) = 2 /\
  is_Some ((<["s3" := black]> ({[ "s2" := black ]} : gmap string Role)) !! "s3").
Proof.
  destruct (room_shape_on_every_run (state_after run_rejoined) "AB3K"
              (mkRoom "s2" ["s2"; "s3"] (<["s3" := black]> {[ "s2" := black ]})))
    as [Hlen Hkeys].
  - apply (reachable_example run_rejoined). vm_compute. reflexivity.
  - vm_compute. reflexivity.
  - split; [reflexivity|]. apply Hkeys. simpl. right. left.
Defined.

(** X2: in every state the server can reach, the host of a room is one of
    its players. *)
Theorem host_is_player_on_every_run st code room :
  reachable st -> rooms_get code (rooms st) = Some room -> hostId room ∈ players room.
Proof. apply reachable_host_listed. Qed.

Lemma host_is_player_on_every_run_witness :
  "s2" ∈ players (mkRoom "s2" ["s2"] {[ "s2" := black ]}).
Proof.
  apply (host_is_player_on_every_run (state_after run_host_left) "AB3K"
           (mkRoom "s2" ["s2"] {[ "s2" := black ]})).
  - apply (reachable_example run_host_left). vm_compute. reflexivity.
  - vm_compute. reflexivity.
Defined.

(** X3: in every state the server can reach, a broadcast to the group of a
    room code reaches exactly the open connections listed in the players of
    the room registered under that code. *)
Theorem room_group_on_every_run st id code :
  reachable st ->
  (reaches st id (ToRoom (CodeRoom code)) = true <->
   id ∈ sockets st /\
   exists room, rooms_get code (rooms st) = Some room /\ id ∈ players room).
Proof.
  intros Hr. destruct (reachable_invariant _ Hr) as (_ & Hs1 & Hs2).
  rewrite reaches_code_room. split.
  - intros [Hopen Hj]. split; [done|]. by destruct (Hs2 _ _ Hj).
  - intros (Hopen & room & Hget & Hin). split; [done|]. by eapply Hs1.
Qed.

Lemma room_group_on_every_run_witness :
  reaches (state_after run_paired) "s1" (ToRoom (CodeRoom "AB3K")) = true <->
  "s1" ∈ sockets (state_after run_paired) /\
  exists room, rooms_get "AB3K" (rooms (state_after run_paired)) = Some room /\
               "s1" ∈ players room.
Proof.
  apply (room_group_on_every_run (state_after run_paired) "s1" "AB3K").
  apply (reachable_example run_paired). vm_compute. reflexivity.
Defined.

Lemma makeCode_chars_witness :
  all_chars is_code_char (makeCode 4 draw_half) = true /\
  String.length (makeCode 4 draw_half) = length draw_half `min` 4.
Proof.
  apply (makeCode_chars draw_half).
  apply Forall_cons. split; [vm_compute; lia|apply Forall_nil_2].
Defined.

Lemma normalize_typed_witness :
  normalize (JStr (encode_all [160; 32; 65279]%N ++ toLowerCase "AB3K" ++
                   encode_all [8232; 9; 12288]%N)) = Return "AB3K" /\
  normalize (JStr (encode_all [160; 32; 65279]%N ++ "AB3K" ++
                   encode_all [8232; 9; 12288]%N)) = Return "AB3K".
Proof.
  apply (normalize_typed "AB3K" (encode_all [160; 32; 65279]%N)
           (encode_all [8232; 9; 12288]%N)); reflexivity.
Defined.



(** X7: the retry loop of create-room ends at the first draw whose code is
    free: when the draws before it all give codes in use, the loop returns
    the code of that draw, whatever the draws after it are. *)
Theorem freshCode_first_free (rs : Rooms) (d : Random) (retries : list Random)
    (taken : list Random) (d' : Random) (rest : list Random) :
  d :: retries = (taken ++ d' :: rest)%list ->
  Forall (fun t => is_Some (rooms_get (makeCode 4 t) rs)) taken ->
  rooms_get (makeCode 4 d') rs = None ->
  freshCode rs (makeCode 4 d) retries = Some (makeCode 4 d').
Proof.
  revert d retries. induction taken as [|t taken IH]; intros d retries Heq Htaken Hfree.
  - injection Heq as -> ->. destruct rest; cbn [freshCode]; by rewrite Hfree.
  - injection Heq as -> ->. apply Forall_cons in Htaken as [[r Hr] Htaken].
    destruct taken as [|t' taken]; cbn [app freshCode]; rewrite Hr.
    + by apply (IH d' rest).
    + by apply (IH t' (taken ++ d' :: rest)%list).
Qed.

Lemma freshCode_first_free_witness :
  freshCode (rooms (state_after run_created)) (makeCode 4 draw_AB3K)
    [draw_AB3K; draw_CD12; draw_half] = Some (makeCode 4 draw_CD12).
Proof.
  apply (freshCode_first_free (rooms (state_after run_created)) draw_AB3K
           [draw_AB3K; draw_CD12; draw_half] [draw_AB3K; draw_AB3K] draw_CD12 [draw_half]).
  - reflexivity.
  - repeat (apply Forall_cons; split; [eexists; vm_compute; reflexivity|]).
    apply Forall_nil_2.
  - vm_compute. reflexivity.
Defined.

Lemma drawn_code_chars (d : Random) (retries : list Random) code :
  valid_random d -> Forall valid_random retries ->
  code ∈ makeCode 4 <$> d :: retries ->
  all_chars is_code_char code = true.
Proof.
  intros Hd Hr (d' & -> & Hin)%list_elem_of_fmap.
  assert (valid_random d') as Hd'.
  { apply elem_of_cons in Hin as [->|Hin]; [done|].
    by eapply (proj1 (Forall_forall _ _) Hr). }
  rewrite makeCode_digits. apply upper_digits36. by apply Forall_take.
Qed.

Lemma one_white_one_black id1 id2 :
  id2 ≠ id1 ->
  one_of_each (mkRoom id1 [id1; id2] (<[id2 := black]> {[ id1 := white ]})).
Proof.
  intros Hne. assert (Hw : (<[id2 := black]> ({[ id1 := white ]} : gmap string Role)) !! id1
                           = Some white).
  { by rewrite lookup_insert_ne, lookup_singleton_eq. }
  assert (Hb : (<[id2 := black]> ({[ id1 := white ]} : gmap string Role)) !! id2
               = Some black) by apply lookup_insert_eq.
  intros [|]; cbn [players roles].
  - exists id1. split; [by left|]. split; [done|].
    intros q [->|Hq]%elem_of_cons; [done|].
    apply list_elem_of_singleton in Hq as ->. rewrite Hb. done.
  - exists id2. split; [by right; left|]. split; [done|].
    intros q [->|Hq]%elem_of_cons; [by rewrite Hw|].
    by apply list_elem_of_singleton in Hq as ->.
Qed.

(** X8: the code that create-room hands out, sent back by another connection
    in lower case and with white space around it, finds the new room: the
    join succeeds, the room has the creator and the joiner as its players, and
    each of the two roles is held by exactly one of them. *)
Theorem create_then_join st id1 id2 (d : Random) (retries : list Random) st1 code w1 w2 :
  valid_random d -> Forall valid_random retries ->
  create_room st id1 d retries =
    Some (st1, [mkEmission (ToSocket id1) "room-created" (DCodeRole code white)]) ->
  id2 ≠ id1 ->
  white_only w1 = true -> white_only w2 = true ->
  exists st2 out2,
    join_room st1 id2 (JStr (w1 ++ toLowerCase code ++ w2)) = Return (st2, out2) /\
    rooms_get code (rooms st2) =
      Some (mkRoom id1 [id1; id2] (<[id2 := black]> {[ id1 := white ]})) /\
    one_of_each (mkRoom id1 [id1; id2] (<[id2 := black]> {[ id1 := white ]})).
Proof.
  intros Hd Hr Hcreate Hne H1 H2. unfold create_room in Hcreate.
  destruct (freshCode _ _ _) as [c|] eqn:Hc; [|done].
  cbn [mbind option_bind] in Hcreate. injection Hcreate as <- <-.
  assert (Hchars : all_chars is_code_char c = true).
  { eapply drawn_code_chars; [done..|]. by eapply freshCode_drawn. }
  assert (Hn : normalize (JStr (w1 ++ toLowerCase c ++ w2)) = Return c).
  { rewrite normalize_string, trim_padded
      by auto using all_chars_lower_plain.
    by rewrite toUpperCase_toLowerCase. }
  eexists _, _. split; [|split; [|by apply one_white_one_black]].
  - apply (join_room_accepted _ _ _ c (mkRoom id1 [id1] {[ id1 := white ]})); [done| |].
    + cbn [rooms socket_join with_rooms]. by rewrite rooms_get_set, decide_True.
    + cbn [players length]. lia.
  - cbn [rooms socket_join with_rooms].
    rewrite rooms_get_replace, decide_True, rooms_get_set, decide_True by done. done.
Qed.

Lemma create_then_join_witness :
  exists st2 out2,
    join_room (state_after run_created) "s2" (JStr (encode_all [160; 32]%N ++ toLowerCase "AB3K" ++ "  ")) =
      Return (st2, out2) /\
    rooms_get "AB3K" (rooms st2) =
      Some (mkRoom "s1" ["s1"; "s2"] (<["s2" := black]> {[ "s1" := white ]})) /\
    one_of_each (mkRoom "s1" ["s1"; "s2"] (<["s2" := black]> {[ "s1" := white ]})).
Proof.
  apply (create_then_join (state_after [Connect "s1"]) "s1" "s2" draw_AB3K []
           (state_after run_created) "AB3K" (encode_all [160; 32]%N) "  ").
  - unfold valid_random, draw_AB3K. repeat (apply Forall_cons; split; [lia|]).
    apply Forall_nil_2.
  - apply Forall_nil_2.
  - vm_compute. reflexivity.
  - discriminate.
  - reflexivity.
  - reflexivity.
Defined.

Lemma join_room_joins_witness :
  exists st' out,
    join_room (state_after run_host_left) "s3" (JStr "ab3k") = Return (st', out) /\
    rooms_get "AB3K" (rooms st') =
      Some (mkRoom "s2" (["s2"] ++ ["s3"]) (<["s3" := black]> {[ "s2" := black ]})) /\
    ("s3", "AB3K") ∈ joined st' /\
    head (inbox st' "s3" out) = Some ("room-joined", DCodeRole "AB3K" black).
Proof.
  destruct (join_room_joins (state_after run_host_left) "s3" (JStr "ab3k") "AB3K"
              (mkRoom "s2" ["s2"] {[ "s2" := black ]}))
    as (st' & out & H1 & H2 & _ & H3 & H4).
  - vm_compute. left.
  - reflexivity.
  - vm_compute. reflexivity.
  - reflexivity.
  - exists st', out. split; [exact H1|]. split; [exact H2|]. split; [exact H3|exact H4].
Defined.

(** X10: when a connection joins a room whose one player is another
    connection, the joiner receives room-joined and then room-ready, the
    player already there, if its connection is open, receives opponent-joined
    and then room-ready, both with the full roles, and nobody else receives
    anything. *)
Theorem join_room_notifies st id v code room p :
  reachable st -> id ∈ sockets st ->
  normalize v = Return code ->
  rooms_get code (rooms st) = Some room -> players room = [p] -> p ≠ id ->
  exists st' out,
    join_room st id v = Return (st', out) /\
    inbox st' id out =
      [("room-joined", DCodeRole code black);
       ("room-ready", DCodeRoles code (<[id := black]> (roles room)))] /\
    (p ∈ sockets st ->
     inbox st' p out =
       [("opponent-joined", DCode code);
        ("room-ready", DCodeRoles code (<[id := black]> (roles room)))]) /\
    forall q, q ≠ id -> q ≠ p -> inbox st' q out = [].
Proof.
  intros Hr Hid Hn Hget Hp Hne.
  destruct (reachable_invariant _ Hr) as (_ & Hs1 & Hs2).
  assert (Hhost : hostId room = p).
  { pose proof (reachable_host_listed _ _ _ Hr Hget) as Hh. rewrite Hp in Hh.
    by apply list_elem_of_singleton in Hh. }
  eexists _, _. split.
  { apply (join_room_accepted _ _ _ code room); [done..|]. rewrite Hp. simpl. lia. }
  cbn [roles]. rewrite Hhost.
  match goal with |- context [inbox ?s _ _] => set (st' := s) end.
  assert (Hsock : sockets st' = sockets st) by done.
  assert (Hjoin : forall q, (q, code) ∈ joined st' <-> q = id \/ (q, code) ∈ joined st).
  { intros q. unfold st'. cbn [joined socket_join with_rooms].
    rewrite elem_of_cons. split; intros [H|H]; auto; [left; congruence|left; by subst]. }
  assert (Rself : forall q, reaches st' q (ToSocket id) = bool_decide (q ∈ sockets st ∧ q = id)).
  { intros q. apply eq_true_iff_eq. rewrite reaches_socket, bool_decide_eq_true.
    by rewrite Hsock. }
  assert (Rhost : forall q, reaches st' q (ToRoom (OwnRoom p)) = bool_decide (q ∈ sockets st ∧ q = p)).
  { intros q. apply eq_true_iff_eq. rewrite reaches_own_room, bool_decide_eq_true.
    by rewrite Hsock. }
  assert (Rroom : forall q, reaches st' q (ToRoom (CodeRoom code)) =
                            bool_decide (q ∈ sockets st ∧ (q = id \/ q = p))).
  { intros q. apply eq_true_iff_eq.
    rewrite reaches_code_room, bool_decide_eq_true, Hsock, Hjoin.
    split; intros [Hq H]; (split; [done|]); destruct H as [H|H]; auto.
    - right. destruct (Hs2 _ _ H) as (_ & room' & Hget' & Hin).
      rewrite Hget in Hget'. simplify_eq. rewrite Hp in Hin.
      by apply list_elem_of_singleton in Hin.
    - right. subst q. eapply Hs1; [done| |done]. rewrite Hp. by left. }
  split; [|split].
  - rewrite !inbox_cons, Rself, Rhost, Rroom.
    rewrite (bool_decide_eq_true_2 (id ∈ sockets st ∧ id = id)) by done.
    rewrite (bool_decide_eq_false_2 (id ∈ sockets st ∧ id = p)) by (intros [_ ?]; done).
    by rewrite (bool_decide_eq_true_2 (id ∈ sockets st ∧ (id = id ∨ id = p))) by auto.
  - intros Hopen. rewrite !inbox_cons, Rself, Rhost, Rroom.
    rewrite (bool_decide_eq_false_2 (p ∈ sockets st ∧ p = id)) by (intros [_ ?]; done).
    rewrite (bool_decide_eq_true_2 (p ∈ sockets st ∧ p = p)) by done.
    by rewrite (bool_decide_eq_true_2 (p ∈ sockets st ∧ (p = id ∨ p = p))) by auto.
  - intros q Hq1 Hq2. rewrite !inbox_cons, Rself, Rhost, Rroom.
    rewrite (bool_decide_eq_false_2 (q ∈ sockets st ∧ q = id)) by (intros [_ ?]; done).
    rewrite (bool_decide_eq_false_2 (q ∈ sockets st ∧ q = p)) by (intros [_ ?]; done).
    by rewrite (bool_decide_eq_false_2 (q ∈ sockets st ∧ (q = id ∨ q = p)))
      by (intros [_ [?|?]]; done).
Qed.

Lemma join_room_notifies_witness :
  exists st' out,
    join_room (state_after (run_created ++ [Connect "s2"])) "s2" (JStr "ab3k") =
      Return (st', out) /\
    inbox st' "s2" out =
      [("room-joined", DCodeRole "AB3K" black);
       ("room-ready", DCodeRoles "AB3K" (<["s2" := black]> {[ "s1" := white ]}))] /\
    inbox st' "s1" out =
      [("opponent-joined", DCode "AB3K");
       ("room-ready", DCodeRoles "AB3K" (<["s2" := black]> {[ "s1" := white ]}))].
Proof.
  destruct (join_room_notifies (state_after (run_created ++ [Connect "s2"])) "s2"
              (JStr "ab3k") "AB3K" (mkRoom "s1" ["s1"] {[ "s1" := white ]}) "s1")
    as (st' & out & H1 & H2 & H3 & _).
  - apply (reachable_example (run_created ++ [Connect "s2"])). vm_compute. reflexivity.
  - vm_compute. left.
  - reflexivity.
  - vm_compute. reflexivity.
  - reflexivity.
  - discriminate.
  - exists st', out. split; [exact H1|]. split; [exact H2|]. apply H3.
    vm_compute. right. left.
Defined.

Lemma join_room_primitive_witness :
  normalize (JNum (mkNumber false "7")) = Return "7" /\
  join_room (state_after run_created) "s1" (JNum (mkNumber false "7")) =
  Return (state_after run_created,
          [mkEmission (ToSocket "s1") "room-error" (DText "Room unavailable")]).
Proof.
  destruct (join_room_primitive (state_after run_created) "s1" (JNum (mkNumber false "7")) I)
    as (code & Hn & [[_ H]|(room & Hget & _)]).
  - split; [reflexivity|exact H].
  - exfalso. injection Hn as <-. vm_compute in Hget. discriminate Hget.
Defined.

Lemma find_first {A} (f : A -> bool) (l : list A) x :
  List.find f l = Some x ->
  exists l1 l2, l = (l1 ++ x :: l2)%list /\ f x = true /\ Forall (fun y => f y = false) l1.
Proof.
  induction l as [|a l IH]; cbn [List.find]; [done|].
  destruct (f a) eqn:Ha.
  - intros [= <-]. by exists [], l.
  - intros H. destruct (IH H) as (l1 & l2 & -> & Hx & Hl1).
    exists (a :: l1), l2. split; [done|]. split; [done|]. by constructor.
Qed.

(** X12: [getRoomOfSocket] returns the first code, in the order of
    [Object.keys], whose room lists the connection: that room exists and has
    it among its players, and no room under an earlier key does. *)
Theorem getRoomOfSocket_first id (rs : Rooms) code :
  getRoomOfSocket id rs = Some code ->
  exists (before after : list string) room,
    keys rs = (before ++ code :: after)%list /\
    rooms_get code rs = Some room /\ id ∈ players room /\
    forall c r, c ∈ before -> rooms_get c rs = Some r -> id ∉ players r.
Proof.
  intros H. destruct (getRoomOfSocket_Some _ _ _ H) as (room & Hget & Hin).
  unfold getRoomOfSocket in H. apply find_first in H as (l1 & l2 & Hk & _ & Hl1).
  exists l1, l2, room. split; [done|]. split; [done|]. split; [done|].
  intros c r Hc Hr. pose proof (proj1 (Forall_forall _ _) Hl1 c Hc) as Hf.
  cbn beta in Hf. rewrite Hr in Hf. by apply includes_false.
Qed.

Lemma getRoomOfSocket_first_witness :
  exists (before after : list string) room,
    keys (rooms (state_after (run_two_rooms ++ [Connect "s2"; JoinRoom "s2" (JStr "cd12")]))) =
      (before ++ "CD12" :: after)%list /\
    rooms_get "CD12"
      (rooms (state_after (run_two_rooms ++ [Connect "s2"; JoinRoom "s2" (JStr "cd12")]))) =
      Some room /\
    "s2" ∈ players room /\
    forall c r, c ∈ before ->
      rooms_get c
        (rooms (state_after (run_two_rooms ++ [Connect "s2"; JoinRoom "s2" (JStr "cd12")]))) =
        Some r -> "s2" ∉ players r.
Proof.
  apply (getRoomOfSocket_first "s2"
           (rooms (state_after (run_two_rooms ++ [Connect "s2"; JoinRoom "s2" (JStr "cd12")])))
           "CD12").
  vm_compute. reflexivity.
Defined.

Lemma disconnect_member_witness :
  exists st',
    disconnect (state_after run_paired) "s1" =
      (st', [mkEmission (ToRoomExcept "s1" (CodeRoom "AB3K")) "opponent-left" (DCode "AB3K")]) /\
    rooms_get "AB3K" (rooms st') =
      Some (mkRoom "s2" ["s2"] (delete "s1" (<["s2" := black]> {[ "s1" := white ]}))) /\
    inbox st' "s2"
      [mkEmission (ToRoomExcept "s1" (CodeRoom "AB3K")) "opponent-left" (DCode "AB3K")] =
      [("opponent-left", DCode "AB3K")].
Proof.
  destruct (disconnect_member (state_after run_paired) "s1" "AB3K"
              (mkRoom "s1" ["s1"; "s2"] (<["s2" := black]> {[ "s1" := white ]})))
    as (st' & H1 & H2).
  - apply (reachable_example run_paired). vm_compute. reflexivity.
  - vm_compute. right. left.
  - reflexivity.
  - discriminate.
  - vm_compute. reflexivity.
  - exists st'. split; [exact H1|].
    change (filter (fun p : string => p ≠ "s1")
              (players (mkRoom "s1" ["s1"; "s2"] (<["s2" := black]> {[ "s1" := white ]}))))
      with ["s2"] in H2.
    destruct H2 as (_ & H2 & H3). split; [exact H2|]. apply H3.
    vm_compute. left.
Defined.

(** X14: the disconnect handler changes no room but the one
    [getRoomOfSocket] returns: every other room, also one that lists the
    connection that went away, stays as it was. *)
Theorem disconnect_one_room st id code' :
  getRoomOfSocket id (rooms st) ≠ Some code' ->
  rooms_get code' (rooms (disconnect st id).1) = rooms_get code' (rooms st).
Proof.
  intros Hne. unfold disconnect, disconnect_handler. cbn [rooms close_socket].
  destruct (getRoomOfSocket id (rooms st)) as [code|]; [|done].
  assert (code' ≠ code) by congruence.
  case_bool_decide; [done|].
  destruct (rooms_get code (rooms st)) as [room|]; [|done].
  destruct (filter _ (players room)) as [|p0 ps]; cbn [fst rooms with_rooms].
  - by rewrite rooms_get_delete, decide_False.
  - by rewrite rooms_get_replace_ne.
Qed.

Lemma disconnect_one_room_witness :
  rooms_get "CD12" (rooms (disconnect (state_after run_two_rooms) "s1").1) =
  rooms_get "CD12" (rooms (state_after run_two_rooms)).
Proof.
  apply (disconnect_one_room (state_after run_two_rooms) "s1" "CD12").
  vm_compute. discriminate.
Defined.

(** X15: the disconnect of a connection that no room lists changes no room
    and sends nothing. *)
Theorem disconnect_stranger st id :
  (forall code room, rooms_get code (rooms st) = Some room -> id ∉ players room) ->
  disconnect st id = (close_socket st id, []) /\
  rooms (disconnect st id).1 = rooms st.
Proof.
  intros H. assert (getRoomOfSocket id (rooms st) = None) as Hnone.
  { destruct (getRoomOfSocket id (rooms st)) as [code|] eqn:E; [|done].
    destruct (getRoomOfSocket_Some _ _ _ E) as (room & Hget & Hin).
    by destruct (H _ _ Hget). }
  unfold disconnect, disconnect_handler. cbn [rooms close_socket].
  by rewrite Hnone.
Qed.

Lemma disconnect_stranger_witness :
  disconnect (state_after (run_created ++ [Connect "s2"])) "s2" =
    (close_socket (state_after (run_created ++ [Connect "s2"])) "s2", []) /\
  rooms (disconnect (state_after (run_created ++ [Connect "s2"])) "s2").1 =
    rooms (state_after (run_created ++ [Connect "s2"])).
Proof.
  apply (disconnect_stranger (state_after (run_created ++ [Connect "s2"])) "s2").
  intros code room Hget.
  apply (is_player_false "s2" (rooms (state_after (run_created ++ [Connect "s2"]))) code room);
    [vm_compute; reflexivity|exact Hget].
Defined.

(** X16: join-room adds no room and removes none, opens and closes no
    connection, and leaves every room but the one its code names as it was. *)
Theorem join_room_keeps_rooms st id v st' out :
  join_room st id v = Return (st', out) ->
  keys (rooms st') = keys (rooms st) /\
  sockets st' = sockets st /\
  forall code, normalize v ≠ Return code ->
    rooms_get code (rooms st') = rooms_get code (rooms st).
Proof.
  unfold join_room. destruct (normalize v) as [c|]; [|done]. cbn [mbind Result_bind].
  destruct (rooms_get c (rooms st)) as [room|]; [|by intros [= <- <-]].
  destruct (2 <=? _)%nat; [by intros [= <- <-]|].
  intros [= <- <-]. cbn [rooms sockets socket_join with_rooms].
  split; [apply keys_rooms_replace|]. split; [done|].
  intros code Hne. apply rooms_get_replace_ne. congruence.
Qed.

Lemma join_room_keeps_rooms_witness :
  keys (rooms (state_after (run_two_rooms ++ [Connect "s2"; JoinRoom "s2" (JStr "cd12")]))) =
  keys (rooms (state_after (run_two_rooms ++ [Connect "s2"]))).
Proof.
  refine (proj1 (join_room_keeps_rooms (state_after (run_two_rooms ++ [Connect "s2"])) "s2"
                   (JStr "cd12") _ _ _)).
  vm_compute. reflexivity.
Defined.

(** X17: an action that returns, swap-sides or not, adds and removes no room,
    changes no room's players or host, leaves the connections and their
    broadcast groups alone, and leaves every room but the one it names as it
    was; unless it is swap-sides it changes nothing at all.  The roles of the
    room it names are all it can change. *)
Theorem action_keeps_players st id payload st' out :
  action_handler st id payload = Return (st', out) ->
  keys (rooms st') = keys (rooms st) /\
  sockets st' = sockets st /\ joined st' = joined st /\
  (forall code, (forall action, request payload ≠ Return (code, action)) ->
     rooms_get code (rooms st') = rooms_get code (rooms st)) /\
  (forall code action, request payload = Return (code, action) ->
     is_swap_sides action = false -> st' = st) /\
  forall code room',
    rooms_get code (rooms st') = Some room' ->
    exists room, rooms_get code (rooms st) = Some room /\
                 hostId room' = hostId room /\ players room' = players room.
Proof.
  unfold action_handler. destruct (request payload) as [[c action]|] eqn:Hreq; [|done].
  cbn [mbind Result_bind].
  destruct (rooms_get c (rooms st)) as [room0|] eqn:Hget; [|by (intros [= <- <-]; repeat split; eauto)].
  destruct (negb _); [by (intros [= <- <-]; repeat split; eauto)|].
  destruct (is_swap_sides action) eqn:Hswap; [|by (intros [= <- <-]; repeat split; eauto)].
  unfold swapRoomRoles. rewrite Hget.
  destruct (players room0) as [|a [|b [|? ?]]] eqn:Hp; try by (intros [= <- <-]; repeat split; eauto).
  intros [= <- <-]. cbn [rooms sockets joined with_rooms].
  split; [apply keys_rooms_replace|]. split; [done|]. split; [done|].
  split; [|split].
  - intros code Hne. apply rooms_get_replace_ne. intros ->. by apply (Hne action).
  - intros code action0 [= <- <-]. congruence.
  - intros code room'. rewrite rooms_get_replace. case_decide as Hc.
    + subst code. rewrite Hget. intros [= <-]. exists room0. by rewrite Hp.
    + intros Hr. by exists room'.
Qed.

Lemma action_keeps_players_witness :
  keys (rooms (state_after (run_paired ++ [Action "s2" (swap_sides_in "ab3k")]))) =
  keys (rooms (state_after run_paired)).
Proof.
  refine (proj1 (action_keeps_players (state_after run_paired) "s2" (swap_sides_in "ab3k")
                   _ _ _)).
  vm_compute. reflexivity.
Defined.

(** X18: a room-error is the only message of the handler call that sends it,
    it is addressed to the requester alone, and the call changes nothing. *)
Theorem errors_go_to_requester st id v st' out e :
  join_room st id v = Return (st', out) \/ action_handler st id v = Return (st', out) ->
  e ∈ out -> event e = "room-error" ->
  st' = st /\ out = [e] /\
  (target e = ToSocket id \/ target e = ToRoom (OwnRoom id)).
Proof.
  intros [H|H] He Hev.
  - unfold join_room in H. destruct (normalize v) as [c|]; [|done].
    cbn [mbind Result_bind] in H.
    destruct (rooms_get c (rooms st)) as [room|].
    + destruct (2 <=? _)%nat; injection H as <- <-.
      * apply list_elem_of_singleton in He as ->. auto.
      * repeat (apply elem_of_cons in He as [->|He]; [done|]).
        by apply elem_of_nil in He.
    + injection H as <- <-. apply list_elem_of_singleton in He as ->. auto.
  - unfold action_handler in H. destruct (request v) as [[c action]|]; [|done].
    cbn [mbind Result_bind] in H.
    destruct (rooms_get c (rooms st)) as [room|].
    2:{ injection H as <- <-. by apply elem_of_nil in He. }
    destruct (negb _).
    { injection H as <- <-. by apply elem_of_nil in He. }
    destruct (is_swap_sides action).
    + destruct (swapRoomRoles c (rooms st)) as [rs [roles1|]]; injection H as <- <-.
      * repeat (apply elem_of_cons in He as [->|He]; [done|]).
        by apply elem_of_nil in He.
      * apply list_elem_of_singleton in He as ->. auto.
    + injection H as <- <-. apply list_elem_of_singleton in He as ->. done.
Qed.

Lemma errors_go_to_requester_witness :
  target (mkEmission (ToRoom (OwnRoom "s1")) "room-error"
            (DText "Need 2 players to swap sides")) = ToSocket "s1" \/
  target (mkEmission (ToRoom (OwnRoom "s1")) "room-error"
            (DText "Need 2 players to swap sides")) = ToRoom (OwnRoom "s1").
Proof.
  refine (proj2 (proj2 (errors_go_to_requester (state_after run_created) "s1"
                          (swap_sides_in "ab3k") (state_after run_created)
                          [mkEmission (ToRoom (OwnRoom "s1")) "room-error"
                             (DText "Need 2 players to swap sides")]
                          _ _ _ _))).
  - right. vm_compute. reflexivity.
  - left.
  - reflexivity.
Defined.

End coverage.
